(** * The user endpoints of unterstrich (src/users/users.go)

    A shallow embedding of the handlers [GetUsers], [GetUser], [GetMe],
    [CreateUser], [DeleteUser] and [UpdateUser], together with the parts of
    their collaborators that the handlers rely on: [strconv.Atoi], the JSON
    binding of gin (encoding/json driven by the struct tags, then the
    [binding:"required"] validation), the gorm calls on the users table and
    the hash format of [bcrypt.GenerateFromPassword].

    Go passes every argument by value.  A pointer variable is modelled as an
    [option]: [None] is the nil pointer, [Some u] a pointer to a struct whose
    current content is [u].  A callee that writes through a pointer returns
    the new content of the pointee; it has nothing to return for [None]. *)

From Stdlib Require Import String Ascii List ZArith NArith Bool Lia.
Import ListNotations.

Local Open Scope string_scope.
Local Open Scope list_scope.
Set Warnings "-register-all".

(** ** JSON values

    Request bodies after the lexical pass of encoding/json, and response
    bodies before rendering.  An integer literal keeps its sign apart from
    its magnitude (so that the literal -0 is told from 0); a literal with a
    fraction or an exponent keeps its text.  The members of an object keep
    their order and their duplicates. *)
Inductive json : Type :=
| JNull
| JBool (b : bool)
| JNum (negative : bool) (magnitude : N)
| JReal (literal : string)
| JStr (s : string)
| JArr (items : list json)
| JObj (members : list (string * json)).

(** Errors that reach a handler as a Go [error] value. *)
Inductive Error : Type :=
| NumError (input : string)             (* strconv.Atoi *)
| SyntaxError                           (* encoding/json: the body is not JSON *)
| InvalidUnmarshalError                 (* encoding/json: Unmarshal(nil *T) *)
| UnmarshalTypeError (field : string)   (* encoding/json: value of the wrong kind *)
| ValidationErrors (fields : list string). (* gin: binding:"required" not met *)

(** ** strconv.Atoi *)

Definition is_digit (a : ascii) : bool :=
  let n := nat_of_ascii a in (48 <=? n)%nat && (n <=? 57)%nat.

Fixpoint digits_value (s : string) (acc : Z) : option Z :=
  match s with
  | EmptyString => Some acc
  | String a rest =>
      if is_digit a
      then digits_value rest (10 * acc + (Z.of_nat (nat_of_ascii a) - 48))%Z
      else None
  end.

(** An optional sign, then at least one decimal digit and nothing else; the
    value has to fit the 64-bit [int]. *)
Definition Atoi (s : string) : option Z :=
  let '(neg, ds) :=
    match s with
    | String "+"%char rest => (false, rest)
    | String "-"%char rest => (true, rest)
    | _ => (false, s)
    end in
  match ds with
  | EmptyString => None
  | _ =>
      match digits_value ds 0 with
      | None => None
      | Some v =>
          let n := if neg then (- v)%Z else v in
          if ((- 2 ^ 63 <=? n) && (n <? 2 ^ 63))%Z then Some n else None
      end
  end.

(** ** encoding/json: decoding into a struct *)

Definition lower (a : ascii) : ascii :=
  let n := nat_of_ascii a in
  if (65 <=? n)%nat && (n <=? 90)%nat then ascii_of_nat (n + 32) else a.

(** The folding under which encoding/json matches an object key against a
    field name: ASCII letters without their case, and the Kelvin sign
    (U+212A, bytes 226 132 170) and the long s (U+017F, bytes 197 191) as k
    and s.  Every tag of this package is lower-case ASCII, so a key matches a
    tag exactly when its folding is the tag. *)
Fixpoint foldName (s : string) : string :=
  match s with
  | EmptyString => EmptyString
  | String a rest =>
      match a, rest with
      | "226"%char, String "132"%char (String "170"%char rest') =>
          String "k"%char (foldName rest')
      | "197"%char, String "191"%char rest' =>
          String "s"%char (foldName rest')
      | _, _ => String (lower a) (foldName rest)
      end
  end.

(** The decoder keeps the first error and goes on with the next member. *)
Definition first_error (e1 e2 : option Error) : option Error :=
  match e1 with
  | Some _ => e1
  | None => e2
  end.

Section Object.
Context {T : Type}.
Variable member : string -> json -> T -> T * option Error.

Fixpoint decode_members (ms : list (string * json)) (t : T) : T * option Error :=
  match ms with
  | [] => (t, None)
  | (k, v) :: rest =>
      let '(t1, e1) := member k v t in
      let '(t2, e2) := decode_members rest t1 in
      (t2, first_error e1 e2)
  end.

(** [null] leaves the struct as it is; anything but an object is a type
    error. *)
Definition decode_object (name : string) (j : json) (t : T) : T * option Error :=
  match j with
  | JNull => (t, None)
  | JObj ms => decode_members ms t
  | _ => (t, Some (UnmarshalTypeError name))
  end.
End Object.

Definition decode_string (field : string) (v : json) (old : string)
  : string * option Error :=
  match v with
  | JStr s => (s, None)
  | JNull => (old, None)
  | _ => (old, Some (UnmarshalTypeError field))
  end.

Definition decode_bool (field : string) (v : json) (old : bool)
  : bool * option Error :=
  match v with
  | JBool b => (b, None)
  | JNull => (old, None)
  | _ => (old, Some (UnmarshalTypeError field))
  end.

(** A [uint] field takes an unsigned integer literal below 2^64. *)
Definition decode_uint (field : string) (v : json) (old : N)
  : N * option Error :=
  match v with
  | JNum false n =>
      if (n <? 2 ^ 64)%N then (n, None) else (old, Some (UnmarshalTypeError field))
  | JNull => (old, None)
  | _ => (old, Some (UnmarshalTypeError field))
  end.

(** gin's [required]: a string field must not be empty.  The failing fields
    are reported together. *)
Definition required (field : string) (value : string) : list string :=
  if String.eqb value "" then [field] else [].

Definition validation (failed : list string) : option Error :=
  match failed with
  | [] => None
  | _ => Some (ValidationErrors failed)
  end.

(** ** The models *)

Module model.
(** Modelled from the spec: package model (github.com/hellerve/unterstrich/model)
    is not among the sources.  Its [Base] is embedded in every model and
    carries the "unique numeric id (assigned at creation, immutable)" of
    the data model; the handlers read it as [user.ID], gorm takes it as the
    primary key, and it is serialised as the member [id] of the persisted
    shape. *)
Record Base : Type := { ID : N }.

Definition zero : Base := {| ID := 0 |}.

Definition members (b : Base) : list (string * json) :=
  [("id", JNum false (ID b))].
End model.

(** Address is a user's address. *)
Module Address.
Record t : Type := {
  Base : model.Base;
  Line1 : string;
  Line2 : string;
  City : string;
  State : string
}.

Definition zero : t :=
  {| Base := model.zero; Line1 := ""; Line2 := ""; City := ""; State := "" |}.

Definition member (k : string) (v : json) (a : t) : t * option Error :=
  let f := foldName k in
  if String.eqb f "id" then
    let '(x, e) := decode_uint "id" v (model.ID (Base a)) in
    ({| Base := {| model.ID := x |}; Line1 := Line1 a; Line2 := Line2 a;
        City := City a; State := State a |}, e)
  else if String.eqb f "line1" then
    let '(x, e) := decode_string "line1" v (Line1 a) in
    ({| Base := Base a; Line1 := x; Line2 := Line2 a;
        City := City a; State := State a |}, e)
  else if String.eqb f "line2" then
    let '(x, e) := decode_string "line2" v (Line2 a) in
    ({| Base := Base a; Line1 := Line1 a; Line2 := x;
        City := City a; State := State a |}, e)
  else if String.eqb f "city" then
    let '(x, e) := decode_string "city" v (City a) in
    ({| Base := Base a; Line1 := Line1 a; Line2 := Line2 a;
        City := x; State := State a |}, e)
  else if String.eqb f "state" then
    let '(x, e) := decode_string "state" v (State a) in
    ({| Base := Base a; Line1 := Line1 a; Line2 := Line2 a;
        City := City a; State := x |}, e)
  else (a, None).

Definition MarshalJSON (a : t) : json :=
  JObj (model.members (Base a) ++
        [("line1", JStr (Line1 a)); ("line2", JStr (Line2 a));
         ("city", JStr (City a)); ("state", JStr (State a))]).
End Address.

(** Social is a user's social media accounts. *)
Module Social.
Record t : Type := {
  Base : model.Base;
  Github : string;
  Ello : string;
  Website : string
}.

Definition zero : t :=
  {| Base := model.zero; Github := ""; Ello := ""; Website := "" |}.

Definition member (k : string) (v : json) (s : t) : t * option Error :=
  let f := foldName k in
  if String.eqb f "id" then
    let '(x, e) := decode_uint "id" v (model.ID (Base s)) in
    ({| Base := {| model.ID := x |}; Github := Github s; Ello := Ello s;
        Website := Website s |}, e)
  else if String.eqb f "github" then
    let '(x, e) := decode_string "github" v (Github s) in
    ({| Base := Base s; Github := x; Ello := Ello s; Website := Website s |}, e)
  else if String.eqb f "ello" then
    let '(x, e) := decode_string "ello" v (Ello s) in
    ({| Base := Base s; Github := Github s; Ello := x; Website := Website s |}, e)
  else if String.eqb f "website" then
    let '(x, e) := decode_string "website" v (Website s) in
    ({| Base := Base s; Github := Github s; Ello := Ello s; Website := x |}, e)
  else (s, None).

Definition MarshalJSON (s : t) : json :=
  JObj (model.members (Base s) ++
        [("github", JStr (Github s)); ("ello", JStr (Ello s));
         ("website", JStr (Website s))]).
End Social.

(** A pointer field to a struct: [null] resets the pointer to nil; for any
    other value a nil pointer is first set to a new zero struct, then an
    object is decoded into the pointee and a value of another kind is a type
    error. *)
Definition decode_ptr {T : Type} (zero : T)
    (member : string -> json -> T -> T * option Error)
    (field : string) (v : json) (old : option T) : option T * option Error :=
  match v with
  | JNull => (None, None)
  | JObj ms =>
      let '(t, e) := decode_members member ms
                       (match old with Some t => t | None => zero end) in
      (Some t, e)
  | _ => (Some (match old with Some t => t | None => zero end),
          Some (UnmarshalTypeError field))
  end.

(** CreationUser is a user model on creation. *)
Module CreationUser.
Record t : Type := {
  Email : string;
  Password : string;
  Username : string;
  Artist : bool;
  Curator : bool
}.

Definition zero : t :=
  {| Email := ""; Password := ""; Username := ""; Artist := false; Curator := false |}.

Definition member (k : string) (v : json) (u : t) : t * option Error :=
  let f := foldName k in
  if String.eqb f "email" then
    let '(x, e) := decode_string "email" v (Email u) in
    ({| Email := x; Password := Password u; Username := Username u;
        Artist := Artist u; Curator := Curator u |}, e)
  else if String.eqb f "password" then
    let '(x, e) := decode_string "password" v (Password u) in
    ({| Email := Email u; Password := x; Username := Username u;
        Artist := Artist u; Curator := Curator u |}, e)
  else if String.eqb f "username" then
    let '(x, e) := decode_string "username" v (Username u) in
    ({| Email := Email u; Password := Password u; Username := x;
        Artist := Artist u; Curator := Curator u |}, e)
  else if String.eqb f "is_artist" then
    let '(x, e) := decode_bool "is_artist" v (Artist u) in
    ({| Email := Email u; Password := Password u; Username := Username u;
        Artist := x; Curator := Curator u |}, e)
  else if String.eqb f "is_curator" then
    let '(x, e) := decode_bool "is_curator" v (Curator u) in
    ({| Email := Email u; Password := Password u; Username := Username u;
        Artist := Artist u; Curator := x |}, e)
  else (u, None).

Definition validate (u : t) : option Error :=
  validation (required "Email" (Email u) ++ required "Password" (Password u)
              ++ required "Username" (Username u)).

(** [c.ShouldBindJSON(&jsonuser)]: decode, and validate what decoded. *)
Definition ShouldBindJSON (body : option json) (obj : t) : t * option Error :=
  match body with
  | None => (obj, Some SyntaxError)
  | Some j =>
      let '(u, e) := decode_object member "CreationUser" j obj in
      match e with
      | Some _ => (u, e)
      | None => (u, validate u)
      end
  end.
End CreationUser.

Module endpoints.
(** Modelled from the spec: package endpoints
    (github.com/hellerve/unterstrich/endpoints) is not among the sources.
    [Endpoint(db, f)] is the "HTTP framework wiring" around a handler: the
    gin handler it returns calls [f] with the context of the request and the
    database handle [db]. *)
Definition Endpoint {Handler : Type} (f : Handler) : Handler := f.
End endpoints.

(** ** net/http status codes *)
Module http.
Definition StatusOK : Z := 200.
Definition StatusBadRequest : Z := 400.
Definition StatusForbidden : Z := 403.
Definition StatusNotFound : Z := 404.
Definition StatusInternalServerError : Z := 500.
End http.

(** ** gin: the request as a handler sees it, and what it answers *)

(** [Body] is what [json.Decoder.Decode] reads of the request body: its first
    JSON value, whatever text follows it; [None] when the body does not start
    with a JSON value (it is empty, or the value is ill-formed). *)
Record Context : Type := {
  Param_id : string;                    (* c.Param("id") *)
  Body : option json;                   (* the first JSON value of the body *)
  JWT_PAYLOAD : option (list (string * string))
                                        (* the claims the auth middleware stored *)
}.

(** [jwt.ExtractClaims(c)["id"]]: no payload is an empty claim map. *)
Definition claims_id (c : Context) : option string :=
  match JWT_PAYLOAD c with
  | None => None
  | Some claims =>
      match find (fun kv => String.eqb (fst kv) "id") claims with
      | Some kv => Some (snd kv)
      | None => None
      end
  end.

Definition with_Body (c : Context) (b : option json) : Context :=
  {| Param_id := Param_id c; Body := b; JWT_PAYLOAD := JWT_PAYLOAD c |}.

(** The values after the format of [c.String]: an error text, or a [uint]
    converted with [string(...)]. *)
Inductive Value : Type :=
| VError (e : Error)
| VRune (n : N).

Inductive Rendered : Type :=
| Text (format : string) (values : list Value)    (* c.String *)
| JSON (j : json).                                (* c.JSON *)

(** What a handler leaves behind: a status and a body, or a panic (a nil
    pointer dereference). *)
Inductive Reply : Type :=
| Respond (code : Z) (body : Rendered)
| Panic.

(** ** The outcomes of the specification

    The names the specification gives to what the handlers answer.  The two
    answers with status 403 are kept apart by their text: a privileged flag
    was asked for, or the record belongs to another user. *)
Inductive Outcome : Type :=
| Success
| ValidationFailure
| NotFound
| Unauthenticated
| WrongIdentity
| PrivilegeEscalation
| Conflict
| CryptoFailure
| Crashed.

Definition outcome (r : Reply) : Outcome :=
  match r with
  | Panic => Crashed
  | Respond code body =>
      if (code =? http.StatusOK)%Z then Success
      else if (code =? http.StatusBadRequest)%Z then
        match body with
        | Text format _ =>
            if String.eqb format "User already present: " then Conflict
            else ValidationFailure
        | JSON _ => ValidationFailure
        end
      else if (code =? 401)%Z then Unauthenticated
      else if (code =? http.StatusForbidden)%Z then
        match body with
        | Text format _ =>
            if String.eqb format "Cannot alter foreign user" then WrongIdentity
            else PrivilegeEscalation
        | JSON _ => PrivilegeEscalation
        end
      else if (code =? http.StatusNotFound)%Z then NotFound
      else if (code =? http.StatusInternalServerError)%Z then CryptoFailure
      else Crashed
  end.

(** The checks of the ownership policy, in the order of its tie-break rule. *)
Inductive Check : Type :=
| Identity
| Privilege
| Uniqueness.

Definition rank (k : Check) : nat :=
  match k with
  | Identity => 0
  | Privilege => 1
  | Uniqueness => 2
  end.

(** The check whose failure an outcome reports. *)
Definition surfaced (o : Outcome) : option Check :=
  match o with
  | Unauthenticated | WrongIdentity => Some Identity
  | PrivilegeEscalation => Some Privilege
  | Conflict => Some Uniqueness
  | _ => None
  end.

(** ** Request bodies *)

Definition member_of (k : string) (j : json) : option json :=
  match j with
  | JObj ms =>
      match find (fun m => String.eqb (fst m) k) ms with
      | Some m => Some (snd m)
      | None => None
      end
  | _ => None
  end.

(** The body has a member [k] that is [true]. *)
Definition sets_flag (k : string) (body : option json) : bool :=
  match body with
  | Some (JObj ms) =>
      existsb (fun m => String.eqb (fst m) k &&
                        match snd m with JBool true => true | _ => false end) ms
  | _ => false
  end.

(** The body without its members [k]. *)
Definition without_member (k : string) (j : json) : json :=
  match j with
  | JObj ms => JObj (filter (fun m => negb (String.eqb (fst m) k)) ms)
  | _ => j
  end.

(** A key that encoding/json would match against a tag [is_staff] or
    [is_admin]. *)
Definition privileged_key (k : string) : bool :=
  String.eqb (foldName k) "is_staff" || String.eqb (foldName k) "is_admin".

Definition without_privileged (j : json) : json :=
  match j with
  | JObj ms => JObj (filter (fun m => negb (privileged_key (fst m))) ms)
  | _ => j
  end.

Definition starts_with (p s : string) : bool := String.prefix p s.

(** ** Stand-ins for closed statements

    Where a statement needs a closed instance of what the development is
    parametric in: an artwork kept as the JSON value that encodes it, a
    digest and a salt of the right lengths. *)
Module Raw.
Definition Artwork : Type := json.

Definition UnmarshalJSON (v : json) (old : option (list Artwork))
  : option (list Artwork) * option Error :=
  match v with
  | JNull => (None, None)
  | JArr items => (Some items, None)
  | _ => (old, Some (UnmarshalTypeError "artworks"))
  end.

Definition MarshalJSON (a : Artwork) : json := a.

Definition digest (password : string) (cost : N) (salt : string) : string :=
  "abcdefghijklmnopqrstuvwxyzABCDE".

Definition salt : string := "0123456789012345678901".
End Raw.

(** ** Ids and bodies, as a caller can tell them apart *)

Fixpoint all_digits (s : string) : bool :=
  match s with
  | EmptyString => true
  | String a rest => is_digit a && all_digits rest
  end.

(** The id without its sign, when it starts with one. *)
Definition unsigned_part (s : string) : string :=
  match s with
  | String a rest =>
      if Ascii.eqb a "+" || Ascii.eqb a "-" then rest else s
  | EmptyString => s
  end.

(** An optional sign and at least one decimal digit, nothing else. *)
Definition numeral (s : string) : bool :=
  negb (String.eqb (unsigned_part s) "") && all_digits (unsigned_part s).

(** The body has a member that encoding/json matches against [tag] and that
    is a string which is not empty. *)
Definition gives (tag : string) (body : option json) : bool :=
  match body with
  | Some (JObj ms) =>
      existsb (fun m => String.eqb (foldName (fst m)) tag &&
                        match snd m with
                        | JStr s => negb (String.eqb s "")
                        | _ => false
                        end) ms
  | _ => false
  end.

(** The tags of [CreationUser]. *)
Definition creation_tags : list string :=
  ["email"; "password"; "username"; "is_artist"; "is_curator"].

Definition creation_key (k : string) : bool :=
  existsb (String.eqb (foldName k)) creation_tags.

(** The body without the members that no tag of [CreationUser] matches. *)
Definition only_creation_members (j : json) : json :=
  match j with
  | JObj ms => JObj (filter (fun m => creation_key (fst m)) ms)
  | _ => j
  end.

(** ** The signup page (src/frontend/pages/signup.js) *)
Module signup.

(** [state.signup].  A field is what [JSON.stringify] makes of its value, or
    [None] when it leaves the member out (the value is [undefined]). *)
Record State : Type := {
  username : option json;
  password : option json;
  email : option json;
  is_artist : option json;
  is_curator : option json
}.

(** What the page emits. *)
Inductive Event : Type :=
| UpdateSignup (key : string) (value : string)      (* "updateSignup" *)
| UpdateSignupBool (key : string) (value : bool)    (* "updateSignupBool" *)
| Update (key : string) (value : string)            (* "update" *)
| PushState (route : string)                        (* "pushState" *)
| LoginError (status : option Z).                   (* "loginError"; [None]:
                                                       [res.status] is undefined *)

(** [update(key)] and [updateBool(key)], applied to the change event of an
    input: [e.target.value] and [e.target.checked]. *)
Definition update (key : string) (value : string) : list Event :=
  [UpdateSignup key value].

Definition updateBool (key : string) (checked : bool) : list Event :=
  [UpdateSignupBool key checked].

(** [JSON.stringify] of an object literal: the members in the order they are
    written, without those whose value is [undefined]. *)
Definition stringify (fields : list (string * option json)) : json :=
  JObj (flat_map (fun f => match snd f with
                           | Some v => [(fst f, v)]
                           | None => []
                           end) fields).

(** The request of [fetch("/users", {method: "POST", body: ...})]: no
    header, so no token. *)
Definition request (state : State) : Context :=
  {| Param_id := "";
     Body := Some (stringify [("username", username state);
                              ("password", password state);
                              ("email", email state);
                              ("is_artist", is_artist state);
                              ("is_curator", is_curator state)]);
     JWT_PAYLOAD := None |}.

(** How the promise of [fetch] settles: a response with its status, and
    whether [res.json()] resolves, or a rejection. *)
Inductive Fetched : Type :=
| Resolved (status : Z) (json_body : bool)
| Rejected.

(** The [then] and the [catch] of [submitSignup]. *)
Definition settle (res : Fetched) : list Event :=
  match res with
  | Resolved status json_body =>
      if (status =? 200)%Z then
        if json_body then [Update "password" ""; PushState "/"] else []
      else [LoginError (Some status)]
  | Rejected => [LoginError None]
  end.

Definition submitSignup (state : State) (fetch : Context -> Fetched) : list Event :=
  settle (fetch (request state)).

(** What the page sees of an answer of the API: [c.JSON] sends a JSON body,
    no text that [c.String] sends in this package is JSON, and a panic is
    answered by the recovery of the router with status 500. *)
Definition over_http (r : Reply) : Fetched :=
  match r with
  | Respond code (JSON _) => Resolved code true
  | Respond code (Text _ _) => Resolved code false
  | Panic => Resolved 500 false
  end.

(** The value a bool field of [CreationUser] takes from a field of the
    state, when it takes one. *)
Definition flag (f : option json) : option bool :=
  match f with
  | None | Some JNull => Some false
  | Some (JBool b) => Some b
  | Some _ => None
  end.

(** The field is left out, or is no string, or is the empty string. *)
Definition blank (f : option json) : bool :=
  match f with
  | Some (JStr s) => String.eqb s ""
  | _ => true
  end.
End signup.

(** ** The users table and the handlers *)

Section Users.

(** [Artwork] belongs to the artwork endpoints: it carries a [float64]
    price and refers back to [User] through its stars, and no handler of
    this package builds or inspects one.  The development is parametric in
    its representation and in its JSON codec. *)
Variable Artwork : Type.
Variable Artworks_UnmarshalJSON :
  json -> option (list Artwork) -> option (list Artwork) * option Error.
Variable Artwork_MarshalJSON : Artwork -> json.

(** x/crypto/bcrypt: the 31 characters that encode the digest of a password
    under a cost and an encoded salt, and the 22 characters of a fresh salt
    read from crypto/rand ([None]: the read failed). *)
Variable bcrypt : string -> N -> string -> string.
Variable rand_salt : option string.

(** User is the user model.  A slice is nil ([None]) or holds elements. *)
Record User : Type := {
  Base : model.Base;
  Email : string;
  Password : string;
  Firstname : string;
  Lastname : string;
  Username : string;
  Artist : bool;
  Curator : bool;
  Admin : bool;
  Staff : bool;
  Address : option Address.t;
  Social : option Social.t;
  Artworks : option (list Artwork)
}.

(** [var user User] *)
Definition zero_User : User :=
  {| Base := model.zero; Email := ""; Password := ""; Firstname := "";
     Lastname := ""; Username := ""; Artist := false; Curator := false;
     Admin := false; Staff := false; Address := None; Social := None;
     Artworks := None |}.

(** [user.ID], promoted from the embedded [Base]. *)
Definition ID (u : User) : N := model.ID (Base u).

Definition set_ID (u : User) (x : N) : User :=
  {| Base := {| model.ID := x |}; Email := Email u; Password := Password u;
     Firstname := Firstname u; Lastname := Lastname u; Username := Username u;
     Artist := Artist u; Curator := Curator u; Admin := Admin u;
     Staff := Staff u; Address := Address u; Social := Social u;
     Artworks := Artworks u |}.

Definition set_Email (u : User) (x : string) : User :=
  {| Base := Base u; Email := x; Password := Password u;
     Firstname := Firstname u; Lastname := Lastname u; Username := Username u;
     Artist := Artist u; Curator := Curator u; Admin := Admin u;
     Staff := Staff u; Address := Address u; Social := Social u;
     Artworks := Artworks u |}.

Definition set_Password (u : User) (x : string) : User :=
  {| Base := Base u; Email := Email u; Password := x;
     Firstname := Firstname u; Lastname := Lastname u; Username := Username u;
     Artist := Artist u; Curator := Curator u; Admin := Admin u;
     Staff := Staff u; Address := Address u; Social := Social u;
     Artworks := Artworks u |}.

Definition set_Firstname (u : User) (x : string) : User :=
  {| Base := Base u; Email := Email u; Password := Password u;
     Firstname := x; Lastname := Lastname u; Username := Username u;
     Artist := Artist u; Curator := Curator u; Admin := Admin u;
     Staff := Staff u; Address := Address u; Social := Social u;
     Artworks := Artworks u |}.

Definition set_Lastname (u : User) (x : string) : User :=
  {| Base := Base u; Email := Email u; Password := Password u;
     Firstname := Firstname u; Lastname := x; Username := Username u;
     Artist := Artist u; Curator := Curator u; Admin := Admin u;
     Staff := Staff u; Address := Address u; Social := Social u;
     Artworks := Artworks u |}.

Definition set_Username (u : User) (x : string) : User :=
  {| Base := Base u; Email := Email u; Password := Password u;
     Firstname := Firstname u; Lastname := Lastname u; Username := x;
     Artist := Artist u; Curator := Curator u; Admin := Admin u;
     Staff := Staff u; Address := Address u; Social := Social u;
     Artworks := Artworks u |}.

Definition set_Artist (u : User) (x : bool) : User :=
  {| Base := Base u; Email := Email u; Password := Password u;
     Firstname := Firstname u; Lastname := Lastname u; Username := Username u;
     Artist := x; Curator := Curator u; Admin := Admin u;
     Staff := Staff u; Address := Address u; Social := Social u;
     Artworks := Artworks u |}.

Definition set_Curator (u : User) (x : bool) : User :=
  {| Base := Base u; Email := Email u; Password := Password u;
     Firstname := Firstname u; Lastname := Lastname u; Username := Username u;
     Artist := Artist u; Curator := x; Admin := Admin u;
     Staff := Staff u; Address := Address u; Social := Social u;
     Artworks := Artworks u |}.

Definition set_Staff (u : User) (x : bool) : User :=
  {| Base := Base u; Email := Email u; Password := Password u;
     Firstname := Firstname u; Lastname := Lastname u; Username := Username u;
     Artist := Artist u; Curator := Curator u; Admin := Admin u;
     Staff := x; Address := Address u; Social := Social u;
     Artworks := Artworks u |}.

Definition set_Address (u : User) (x : option Address.t) : User :=
  {| Base := Base u; Email := Email u; Password := Password u;
     Firstname := Firstname u; Lastname := Lastname u; Username := Username u;
     Artist := Artist u; Curator := Curator u; Admin := Admin u;
     Staff := Staff u; Address := x; Social := Social u;
     Artworks := Artworks u |}.

Definition set_Social (u : User) (x : option Social.t) : User :=
  {| Base := Base u; Email := Email u; Password := Password u;
     Firstname := Firstname u; Lastname := Lastname u; Username := Username u;
     Artist := Artist u; Curator := Curator u; Admin := Admin u;
     Staff := Staff u; Address := Address u; Social := x;
     Artworks := Artworks u |}.

Definition set_Artworks (u : User) (x : option (list Artwork)) : User :=
  {| Base := Base u; Email := Email u; Password := Password u;
     Firstname := Firstname u; Lastname := Lastname u; Username := Username u;
     Artist := Artist u; Curator := Curator u; Admin := Admin u;
     Staff := Staff u; Address := Address u; Social := Social u;
     Artworks := x |}.

(** *** JSON binding of [User]

    The tags of the struct: [Password] and [Admin] are tagged [json:"-"] and
    are no fields of the decoder; the fields of the embedded [Base] are
    promoted. *)
Definition User_member (k : string) (v : json) (u : User) : User * option Error :=
  let f := foldName k in
  if String.eqb f "id" then
    let '(x, e) := decode_uint "id" v (ID u) in (set_ID u x, e)
  else if String.eqb f "email" then
    let '(x, e) := decode_string "email" v (Email u) in (set_Email u x, e)
  else if String.eqb f "firstname" then
    let '(x, e) := decode_string "firstname" v (Firstname u) in (set_Firstname u x, e)
  else if String.eqb f "lastname" then
    let '(x, e) := decode_string "lastname" v (Lastname u) in (set_Lastname u x, e)
  else if String.eqb f "username" then
    let '(x, e) := decode_string "username" v (Username u) in (set_Username u x, e)
  else if String.eqb f "is_artist" then
    let '(x, e) := decode_bool "is_artist" v (Artist u) in (set_Artist u x, e)
  else if String.eqb f "is_curator" then
    let '(x, e) := decode_bool "is_curator" v (Curator u) in (set_Curator u x, e)
  else if String.eqb f "is_staff" then
    let '(x, e) := decode_bool "is_staff" v (Staff u) in (set_Staff u x, e)
  else if String.eqb f "address" then
    let '(x, e) := decode_ptr Address.zero Address.member "address" v (Address u) in
    (set_Address u x, e)
  else if String.eqb f "social" then
    let '(x, e) := decode_ptr Social.zero Social.member "social" v (Social u) in
    (set_Social u x, e)
  else if String.eqb f "artworks" then
    let '(x, e) := Artworks_UnmarshalJSON v (Artworks u) in (set_Artworks u x, e)
  else (u, None).

Definition validate_User (u : User) : option Error :=
  validation (required "Email" (Email u) ++ required "Username" (Username u)).

(** [c.ShouldBindJSON(obj)] for [obj] of type [*User].  The body is read
    first; then encoding/json refuses a nil pointer. *)
Definition ShouldBindJSON (body : option json) (obj : option User)
  : option User * option Error :=
  match body with
  | None => (obj, Some SyntaxError)
  | Some j =>
      match obj with
      | None => (None, Some InvalidUnmarshalError)
      | Some u0 =>
          let '(u, e) := decode_object User_member "User" j u0 in
          match e with
          | Some _ => (Some u, e)
          | None => (Some u, validate_User u)
          end
      end
  end.

(** What [c.JSON] renders of a user. *)
Definition User_MarshalJSON (u : User) : json :=
  JObj (model.members (Base u) ++
        [("email", JStr (Email u));
         ("firstname", JStr (Firstname u));
         ("lastname", JStr (Lastname u));
         ("username", JStr (Username u));
         ("is_artist", JBool (Artist u));
         ("is_curator", JBool (Curator u));
         ("is_staff", JBool (Staff u));
         ("address", match Address u with
                     | None => JNull
                     | Some a => Address.MarshalJSON a
                     end);
         ("social", match Social u with
                    | None => JNull
                    | Some s => Social.MarshalJSON s
                    end);
         ("artworks", match Artworks u with
                      | None => JNull
                      | Some l => JArr (map Artwork_MarshalJSON l)
                      end)]).

(** *** gorm on the users table

    The table holds the columns of [User]; the struct declares no key that
    would relate [Address], [Social] or [Artworks] to it, so a row carries
    none of them.  [last_id] is the auto-increment counter and [log] the
    statements sent to the database, in order. *)

Inductive Cond : Type :=
| ByID (id : Z)                       (* db.First(out, id) *)
| ByUsername (name : option string).  (* db.Where("username = ?", v) *)

Inductive Stmt : Type :=
| SELECT_ALL
| SELECT_FIRST (c : Cond)
| INSERT (row : User)
| UPDATE (row : User)
| DELETE (id : N)
| DELETE_ALL.

Record DB : Type := {
  table : list User;
  last_id : N;
  log : list Stmt
}.

Definition logged (s : Stmt) (db : DB) : DB :=
  {| table := table db; last_id := last_id db; log := log db ++ [s] |}.

(** Scanning a row into a struct sets every column and leaves the rest. *)
Definition scan (row dest : User) : User :=
  {| Base := Base row; Email := Email row; Password := Password row;
     Firstname := Firstname row; Lastname := Lastname row;
     Username := Username row; Artist := Artist row; Curator := Curator row;
     Admin := Admin row; Staff := Staff row; Address := Address dest;
     Social := Social dest; Artworks := Artworks dest |}.

Definition columns (u : User) : User := scan u zero_User.

(** A nil claim is SQL's NULL, which equals nothing. *)
Definition matches (c : Cond) (row : User) : bool :=
  match c with
  | ByID id => Z.eqb (Z.of_N (ID row)) id
  | ByUsername (Some name) => String.eqb (Username row) name
  | ByUsername None => false
  end.

(** ORDER BY id ASC LIMIT 1 *)
Definition first_row (c : Cond) (rows : list User) : option User :=
  fold_right
    (fun r acc =>
       match acc with
       | None => Some r
       | Some a => if (ID r <=? ID a)%N then Some r else Some a
       end)
    None (filter (matches c) rows).

(** [db.NewRecord(value)]: the primary key of the value is blank.  It reads
    the value and never the table; a nil pointer has a blank key. *)
Definition NewRecord (value : option User) : bool :=
  match value with
  | None => true
  | Some u => (ID u =? 0)%N
  end.

(** [db.First(out, ...)] for [out] a pointer to a struct: the first matching
    row is scanned into the pointee; without a row gorm records
    RecordNotFound on the handle it returns, which no handler reads. *)
Definition First_into (db : DB) (dest : User) (c : Cond) : DB * User :=
  match first_row c (table db) with
  | Some row => (logged (SELECT_FIRST c) db, scan row dest)
  | None => (logged (SELECT_FIRST c) db, dest)
  end.

(** [db.First(out, ...)] for [out] of type [*User].  The callee holds a copy
    of the pointer: behind nil there is no struct to scan into, gorm records
    an error before it sends a statement, and the caller's pointer is what it
    was. *)
Definition First (db : DB) (out : option User) (c : Cond) : DB * option User :=
  match out with
  | None => (db, None)
  | Some dest => let '(db1, u) := First_into db dest c in (db1, Some u)
  end.

(** [db.First(other, id)] for [other] a struct: the callee holds a copy of
    the struct.  Whatever gorm does with the copy, the caller's variable
    keeps its content. *)
Definition First_value (db : DB) (other : User) (c : Cond) : DB * User :=
  (logged (SELECT_FIRST c) db, other).

(** [db.Find(&users)] *)
Definition Find (db : DB) : DB * list User :=
  (logged SELECT_ALL db, map (fun row => scan row zero_User) (table db)).

(** [db.Create(&user)]: a blank key is assigned by the table; a given key is
    inserted as it is, unless the table holds it already.  No field of [User]
    is tagged [unique] or [unique_index], so the table that [AutoMigrate]
    makes has no other constraint to fail on.  The handlers do not read the
    error. *)
Definition Create (db : DB) (u : User) : DB * User :=
  if (ID u =? 0)%N then
    let u1 := set_ID u (N.succ (last_id db)) in
    ({| table := table db ++ [columns u1];
        last_id := N.succ (last_id db);
        log := log db ++ [INSERT (columns u1)] |}, u1)
  else if existsb (fun row => (ID row =? ID u)%N) (table db) then
    (logged (INSERT (columns u)) db, u)
  else
    ({| table := table db ++ [columns u];
        last_id := N.max (last_id db) (ID u);
        log := log db ++ [INSERT (columns u)] |}, u).

(** [db.Save(&user)]: with a blank key it creates; otherwise it updates every
    column of the row with that key, and creates the row when there is none. *)
Definition Save (db : DB) (u : User) : DB * User :=
  if (ID u =? 0)%N then Create db u
  else if existsb (fun row => (ID row =? ID u)%N) (table db) then
    ({| table := map (fun row => if (ID row =? ID u)%N then columns u else row)
                     (table db);
        last_id := last_id db;
        log := log db ++ [UPDATE (columns u)] |}, u)
  else Create (logged (UPDATE (columns u)) db) u.

(** [db.Delete(&user)]: the row with the key of the value; with a blank key
    gorm puts no condition on the statement. *)
Definition Delete (db : DB) (u : User) : DB :=
  if (ID u =? 0)%N then
    {| table := []; last_id := last_id db; log := log db ++ [DELETE_ALL] |}
  else
    {| table := filter (fun row => negb (ID row =? ID u)%N) (table db);
       last_id := last_id db;
       log := log db ++ [DELETE (ID u)] |}.

(** *** bcrypt.GenerateFromPassword

    A password of more than 72 bytes is an error ([ErrPasswordTooLong],
    x/crypto v0.5.0 and later).  A cost below [MinCost] (4) is replaced by
    [DefaultCost] (10), one above [MaxCost] (31) is an error; then the salt
    is read.  The hash is [$2a$], the cost in two digits, [$], the salt and
    the digest. *)
Definition two_digits (n : N) : string :=
  String (ascii_of_N (48 + n / 10)) (String (ascii_of_N (48 + n mod 10)) "").

Definition GenerateFromPassword (password : string) (cost : N) : option string :=
  if (72 <? String.length password)%nat then None
  else
    let cost := if (cost <? 4)%N then 10%N else cost in
    if (31 <? cost)%N then None
    else
      match rand_salt with
      | None => None
      | Some salt =>
          Some ("$2a$" ++ two_digits cost ++ "$" ++ salt
                ++ bcrypt password cost salt)%string
      end.

(** The salt a password is hashed with at a cost that is in range: none when
    the password is too long or the salt cannot be read. *)
Definition hashing_salt (password : string) : option string :=
  if (72 <? String.length password)%nat then None else rand_salt.

(** *** The handlers *)

Definition HandlerFunc : Type := Context -> DB -> DB * Reply.

(** GetUsers gets all users *)
Definition GetUsers : HandlerFunc := fun c db =>
  let '(db, users) := Find db in
  (db, Respond http.StatusOK (JSON (JArr (map User_MarshalJSON users)))).

(** GetUser gets a specifc user *)
Definition GetUser : HandlerFunc := fun c db =>
  match Atoi (Param_id c) with
  | None =>
      (db, Respond http.StatusBadRequest
             (Text "ID must be numerical: " [VError (NumError (Param_id c))]))
  | Some id =>
      let user : option User := None in
      let '(db, user) := First db user (ByID id) in
      match user with
      | None => (db, Respond http.StatusNotFound (Text "Invalid ID: not found" []))
      | Some u => (db, Respond http.StatusOK (JSON (User_MarshalJSON u)))
      end
  end.

(** GetMe gets current user *)
Definition GetMe : HandlerFunc := fun c db =>
  let claims := claims_id c in
  let me := zero_User in
  let '(db, me) := First_into db me (ByUsername claims) in
  (db, Respond http.StatusOK (JSON (User_MarshalJSON me))).

(** CreateUser from line 146 on: what the handler does with the [user] it
    has built from the bound body. *)
Definition CreateUser_built (db : DB) (user : User) : DB * Reply :=
  if negb (NewRecord (Some user)) then
    (db, Respond http.StatusBadRequest
           (Text "User already present: " [VRune (ID user)]))
  else if Staff user || Admin user then
    (db, Respond http.StatusForbidden (Text "Cannot create admin user" []))
  else
    match GenerateFromPassword (Password user) 12 with
    | None => (db, Respond http.StatusInternalServerError (Text "" []))
    | Some pw =>
        let user := set_Password user pw in
        let '(db, user) := Create db user in
        (db, Respond http.StatusOK (JSON (User_MarshalJSON user)))
    end.

(** CreateUser creates a new user *)
Definition CreateUser : HandlerFunc := fun c db =>
  let jsonuser := CreationUser.zero in
  let '(jsonuser, err) := CreationUser.ShouldBindJSON (Body c) jsonuser in
  match err with
  | Some e => (db, Respond http.StatusBadRequest (Text "Invalid body: " [VError e]))
  | None =>
      let user := zero_User in
      let user := set_Email user (CreationUser.Email jsonuser) in
      let user := set_Username user (CreationUser.Username jsonuser) in
      let user := set_Password user (CreationUser.Password jsonuser) in
      let user := set_Artist user (CreationUser.Artist jsonuser) in
      let user := set_Curator user (CreationUser.Curator jsonuser) in
      CreateUser_built db user
  end.

(** DeleteUser deletes a user (must be the user themselves) *)
Definition DeleteUser : HandlerFunc := fun c db =>
  match Atoi (Param_id c) with
  | None =>
      (db, Respond http.StatusBadRequest (Text "Invalid ID: must be numerical" []))
  | Some id =>
      let user : option User := None in
      let '(db, user) := First db user (ByID id) in
      match user with
      | None => (db, Respond http.StatusNotFound (Text "Not found" []))
      | Some u =>
          let claims := claims_id c in
          let me := zero_User in
          let '(db, me) := First_into db me (ByUsername claims) in
          if negb (ID u =? ID me)%N then
            (db, Respond http.StatusForbidden (Text "Cannot alter foreign user" []))
          else
            let db := Delete db u in
            (db, Respond http.StatusOK (Text "" []))
      end
  end.

(** UpdateUser from line 216 on: what the handler does with the pointer
    [user] once the body is bound to it. *)
Definition UpdateUser_bound (c : Context) (db : DB) (id : Z) (user : option User)
  : DB * Reply :=
  if NewRecord user then
    (db, Respond http.StatusNotFound (Text "Not found" []))
  else
    let other := zero_User in
    let '(db, other) := First_value db other (ByID id) in
    match user with
    | None => (db, Panic)
    | Some u =>
        if (Staff u && negb (Staff other)) || (Admin u && negb (Admin other))
        then
          (db, Respond http.StatusForbidden (Text "Cannot make user admin" []))
        else
          let claims := claims_id c in
          let me := zero_User in
          let '(db, me) := First_into db me (ByUsername claims) in
          if negb (ID u =? ID me)%N then
            (db, Respond http.StatusForbidden (Text "Cannot alter foreign user" []))
          else
            let '(db, u) := Save db u in
            (db, Respond http.StatusOK (JSON (User_MarshalJSON u)))
    end.

(** UpdateUser updates a user (must be the user themselves) *)
Definition UpdateUser : HandlerFunc := fun c db =>
  match Atoi (Param_id c) with
  | None =>
      (db, Respond http.StatusBadRequest (Text "Invalid ID: must be numerical" []))
  | Some id =>
      let user : option User := None in
      let '(user, err) := ShouldBindJSON (Body c) user in
      match err with
      | Some e => (db, Respond http.StatusBadRequest (Text "Invalid body: " [VError e]))
      | None => UpdateUser_bound c db id user
      end
  end.

(** *** Initialize: the routes

    [POST /users] is registered on the router itself; the other routes sit in
    groups that use the [auth] middleware, so their handlers run only for a
    request whose token the middleware accepted. *)
Inductive Route : Type :=
| POST_users
| GET_users
| GET_users_id
| PUT_users_id
| DELETE_users_id
| GET_me.

Definition behind_auth (r : Route) : bool :=
  match r with
  | POST_users => false
  | _ => true
  end.

Definition Initialize (r : Route) : HandlerFunc :=
  match r with
  | POST_users => endpoints.Endpoint CreateUser
  | GET_users => endpoints.Endpoint GetUsers
  | GET_users_id => endpoints.Endpoint GetUser
  | PUT_users_id => endpoints.Endpoint UpdateUser
  | DELETE_users_id => endpoints.Endpoint DeleteUser
  | GET_me => endpoints.Endpoint GetMe
  end.

(** *** The policy in the words of the specification *)

(** The identity resolver: the user whose username equals the subject of the
    claim. *)
Definition resolve (c : Context) (db : DB) : option User :=
  first_row (ByUsername (claims_id c)) (table db).

(** The record a request on [/users/:id] is aimed at. *)
Definition target (c : Context) (db : DB) : option User :=
  match Atoi (Param_id c) with
  | Some id => first_row (ByID id) (table db)
  | None => None
  end.

Definition holds_login (body : option json) (row : User) : bool :=
  match body with
  | Some j =>
      match member_of "username" j with
      | Some (JStr s) => String.eqb s (Username row)
      | _ => false
      end
      || match member_of "email" j with
         | Some (JStr s) => String.eqb s (Email row)
         | _ => false
         end
  | None => false
  end.

(** A principal may grant a privileged flag when it is staff or admin itself
    and the target is another user. *)
Definition may_grant (c : Context) (db : DB) (t : User) : bool :=
  match resolve c db with
  | Some me => (Staff me || Admin me) && negb (ID t =? ID me)%N
  | None => false
  end.

(** When a check of the policy fails for a request: no principal resolves or,
    where the policy asks for it, the principal is not the target; the body
    asks for a privileged flag (on update: one that the target does not have
    yet, from a principal that may not grant it); the username or the email
    are those of a stored user. *)
Definition fails (k : Check) (r : Route) (c : Context) (db : DB) : bool :=
  match k, r with
  | Identity, POST_users => false
  | Identity, (PUT_users_id | DELETE_users_id) =>
      match resolve c db, target c db with
      | Some me, Some t => negb (ID t =? ID me)%N
      | None, _ => true
      | Some _, None => false
      end
  | Identity, _ =>
      match resolve c db with
      | Some _ => false
      | None => true
      end
  | Privilege, POST_users =>
      sets_flag "is_staff" (Body c) || sets_flag "is_admin" (Body c)
  | Privilege, PUT_users_id =>
      match target c db with
      | Some t =>
          ((sets_flag "is_staff" (Body c) && negb (Staff t))
           || (sets_flag "is_admin" (Body c) && negb (Admin t)))
          && negb (may_grant c db t)
      | None => false
      end
  | Privilege, _ => false
  | Uniqueness, POST_users => existsb (holds_login (Body c)) (table db)
  | Uniqueness, _ => false
  end.

(** The row [CreateUser] inserts for a bound body, a salt and the key the
    table assigns. *)
Definition created_row (u : CreationUser.t) (salt : string) (id : N) : User :=
  {| Base := {| model.ID := id |};
     Email := CreationUser.Email u;
     Password := ("$2a$12$" ++ salt ++ bcrypt (CreationUser.Password u) 12 salt)%string;
     Firstname := ""; Lastname := "";
     Username := CreationUser.Username u;
     Artist := CreationUser.Artist u; Curator := CreationUser.Curator u;
     Admin := false; Staff := false;
     Address := None; Social := None; Artworks := None |}.

(** *** Scenarios *)

Definition amy : User :=
  {| Base := {| model.ID := 1 |}; Email := "a@x.com";
     Password := "$2a$12$0123456789012345678901abcdefghijklmnopqrstuvwxyzABCDE";
     Firstname := ""; Lastname := ""; Username := "amy";
     Artist := true; Curator := false; Admin := false; Staff := false;
     Address := None; Social := None; Artworks := None |}.

Definition bob : User :=
  {| Base := {| model.ID := 2 |}; Email := "b@x.com";
     Password := "$2a$12$0123456789012345678901abcdefghijklmnopqrstuvwxyzABCDE";
     Firstname := ""; Lastname := ""; Username := "bob";
     Artist := false; Curator := false; Admin := false; Staff := false;
     Address := None; Social := None; Artworks := None |}.

Definition empty_store : DB := {| table := []; last_id := 0; log := [] |}.

Definition store : DB := {| table := [amy; bob]; last_id := 2; log := [] |}.

(** POST /users, scenario A of the specification. *)
Definition signup_amy : Context :=
  {| Param_id := "";
     Body := Some (JObj [("username", JStr "amy"); ("email", JStr "a@x.com");
                         ("password", JStr "pw"); ("is_artist", JBool true)]);
     JWT_PAYLOAD := None |}.

(** POST /users with both privileged flags set. *)
Definition signup_mallory : Context :=
  {| Param_id := "";
     Body := Some (JObj [("username", JStr "mallory"); ("email", JStr "m@x.com");
                         ("password", JStr "pw"); ("is_staff", JBool true);
                         ("is_admin", JBool true)]);
     JWT_PAYLOAD := None |}.

(** PUT /users/2 as amy, scenario B of the specification. *)
Definition amy_updates_bob : Context :=
  {| Param_id := "2";
     Body := Some (JObj [("id", JNum false 2); ("email", JStr "b@x.com");
                         ("username", JStr "bob"); ("is_staff", JBool true)]);
     JWT_PAYLOAD := Some [("id", "amy")] |}.

(** PUT /users/1 as amy, who asks for the staff flag on her own record. *)
Definition amy_grants_herself : Context :=
  {| Param_id := "1";
     Body := Some (JObj [("id", JNum false 1); ("email", JStr "a@x.com");
                         ("username", JStr "amy"); ("is_staff", JBool true)]);
     JWT_PAYLOAD := Some [("id", "amy")] |}.

(** DELETE /users/1 as amy. *)
Definition amy_deletes_herself : Context :=
  {| Param_id := "1"; Body := None; JWT_PAYLOAD := Some [("id", "amy")] |}.

(** GET /me with a token whose subject has no row. *)
Definition ghost_asks_me : Context :=
  {| Param_id := ""; Body := None; JWT_PAYLOAD := Some [("id", "ghost")] |}.

(** *** What the store keeps apart from its secrets *)

(** A row without its password hash and its admin flag, the two columns
    tagged [json:"-"]. *)
Definition public (u : User) : User :=
  {| Base := Base u; Email := Email u; Password := "";
     Firstname := Firstname u; Lastname := Lastname u; Username := Username u;
     Artist := Artist u; Curator := Curator u; Admin := false;
     Staff := Staff u; Address := Address u; Social := Social u;
     Artworks := Artworks u |}.

(** Two stores that differ at most in password hashes and admin flags. *)
Definition same_public (db1 db2 : DB) : Prop :=
  map public (table db1) = map public (table db2)
  /\ last_id db1 = last_id db2.

(** The keys of the rows are distinct, positive and not above the counter. *)
Definition keys_ok (db : DB) : Prop :=
  NoDup (map ID (table db))
  /\ Forall (fun row => (0 < ID row <= last_id db)%N) (table db).

(** The field of [CreationUser] that a tag binds to, for the required ones. *)
Definition text_field (tag : string) (u : CreationUser.t) : string :=
  if String.eqb tag "email" then CreationUser.Email u
  else if String.eqb tag "password" then CreationUser.Password u
  else if String.eqb tag "username" then CreationUser.Username u
  else "".

(** *** The signup page against the API *)

(** [submitSignup] with [fetch] served by [POST /users] on a store: the store
    after the request and what the page emits. *)
Definition submitted (state : signup.State) (db : DB) : DB * list signup.Event :=
  let '(db1, reply) := Initialize POST_users (signup.request state) db in
  (db1, signup.settle (signup.over_http reply)).

(** The store of amy and bob after amy has changed her password and has
    been made admin. *)
Definition store_with_other_secrets : DB :=
  {| table := [ {| Base := {| model.ID := 1 |}; Email := "a@x.com";
                   Password := "$2a$12$another-salt-and-another-digest";
                   Firstname := ""; Lastname := ""; Username := "amy";
                   Artist := true; Curator := false; Admin := true;
                   Staff := false; Address := None; Social := None;
                   Artworks := None |};
                bob ];
     last_id := 2; log := [] |}.

(** GET /me as amy. *)
Definition amy_asks_me : Context :=
  {| Param_id := ""; Body := None; JWT_PAYLOAD := Some [("id", "amy")] |}.

(** The signup form filled in by amy, and left without a password. *)
Definition form_amy : signup.State :=
  {| signup.username := Some (JStr "amy"); signup.password := Some (JStr "pw");
     signup.email := Some (JStr "a@x.com"); signup.is_artist := Some (JBool true);
     signup.is_curator := None |}.

Definition form_without_password : signup.State :=
  {| signup.username := Some (JStr "amy"); signup.password := None;
     signup.email := Some (JStr "a@x.com"); signup.is_artist := Some (JBool true);
     signup.is_curator := None |}.

(** Case analysis on what the body of a create request binds to. *)
Ltac bind_cases c :=
  destruct (CreationUser.ShouldBindJSON (Body c) CreationUser.zero)
    as [?u [?e |]].

(** ** Properties of the handlers *)

Example Atoi_decimal :
  Atoi "42" = Some 42%Z /\ Atoi "-7" = Some (-7)%Z /\ Atoi "+3" = Some 3%Z
  /\ Atoi "" = None /\ Atoi "+" = None /\ Atoi "1a" = None
  /\ Atoi "9223372036854775807" = Some 9223372036854775807%Z
  /\ Atoi "9223372036854775808" = None.
Proof. repeat split. Qed.

Example foldName_keys :
  foldName "Is_Admin" = "is_admin" /\ foldName "USERNAME" = "username"
  /\ foldName "is-staff" = "is-staff".
Proof. repeat split. Qed.

(** *** Members the decoder has no field for *)

Lemma decode_members_skip :
  forall (T : Type) (member : string -> json -> T -> T * option Error)
         (skip : string -> bool),
    (forall k v t, skip k = true -> member k v t = (t, None)) ->
    forall ms t,
      decode_members member (filter (fun m => negb (skip (fst m))) ms) t
      = decode_members member ms t.
Proof.
  intros T member skip Hskip.
  induction ms as [| [k v] rest IH]; intros t; simpl; [reflexivity |].
  destruct (skip k) eqn:Hk; simpl.
  - rewrite (Hskip k v t Hk), IH.
    destruct (decode_members member rest t) as [t2 e2]. reflexivity.
  - destruct (member k v t) as [t1 e1]. rewrite IH. reflexivity.
Qed.

Lemma is_admin_is_privileged :
  forall k, String.eqb k "is_admin" = true -> privileged_key k = true.
Proof.
  intros k Hk. apply String.eqb_eq in Hk. subst k. reflexivity.
Qed.

Lemma CreationUser_member_privileged :
  forall k v u, privileged_key k = true -> CreationUser.member k v u = (u, None).
Proof.
  intros k v u Hk. unfold privileged_key in Hk.
  apply orb_true_iff in Hk. unfold CreationUser.member.
  destruct Hk as [Hk | Hk]; apply String.eqb_eq in Hk; rewrite Hk; reflexivity.
Qed.

Lemma User_member_is_admin :
  forall k v u, String.eqb k "is_admin" = true -> User_member k v u = (u, None).
Proof.
  intros k v u Hk. apply String.eqb_eq in Hk. subst k. reflexivity.
Qed.

Lemma CreationUser_bind_without_privileged :
  forall body obj,
    CreationUser.ShouldBindJSON (option_map without_privileged body) obj
    = CreationUser.ShouldBindJSON body obj.
Proof.
  intros [j |] obj; [| reflexivity].
  destruct j; try reflexivity.
  unfold CreationUser.ShouldBindJSON, decode_object; simpl.
  rewrite (decode_members_skip _ CreationUser.member privileged_key
             CreationUser_member_privileged).
  reflexivity.
Qed.

Lemma CreationUser_bind_without_is_admin :
  forall j obj,
    CreationUser.ShouldBindJSON (Some (without_member "is_admin" j)) obj
    = CreationUser.ShouldBindJSON (Some j) obj.
Proof.
  intros j obj. destruct j; try reflexivity.
  unfold CreationUser.ShouldBindJSON, decode_object; simpl.
  rewrite (decode_members_skip _ CreationUser.member
             (fun k => String.eqb k "is_admin")).
  - reflexivity.
  - intros k v t Hk. apply CreationUser_member_privileged.
    apply is_admin_is_privileged. exact Hk.
Qed.

Lemma User_bind_without_is_admin :
  forall j obj,
    ShouldBindJSON (Some (without_member "is_admin" j)) obj
    = ShouldBindJSON (Some j) obj.
Proof.
  intros j [u |]; [| reflexivity].
  destruct j; try reflexivity.
  unfold ShouldBindJSON, decode_object; simpl.
  rewrite (decode_members_skip _ User_member (fun k => String.eqb k "is_admin")
             User_member_is_admin).
  reflexivity.
Qed.

(** No member of a body reaches [Admin]. *)
Lemma User_member_keeps_Admin :
  forall k v u, Admin (fst (User_member k v u)) = Admin u.
Proof.
  intros k v u. unfold User_member.
  repeat match goal with
         | |- context [if ?b then _ else _] => destruct b
         | |- context [let '(_, _) := ?p in _] => destruct p
         end; reflexivity.
Qed.

Lemma decode_members_keeps_Admin :
  forall ms u, Admin (fst (decode_members User_member ms u)) = Admin u.
Proof.
  induction ms as [| [k v] rest IH]; intros u; simpl; [reflexivity |].
  pose proof (User_member_keeps_Admin k v u) as Hk.
  destruct (User_member k v u) as [u1 e1]. simpl in Hk.
  specialize (IH u1).
  destruct (decode_members User_member rest u1) as [u2 e2]. simpl in *.
  congruence.
Qed.

(** *** The pointers that stay nil *)

Lemma First_nil : forall db cond, First db None cond = (db, None).
Proof. reflexivity. Qed.

Lemma ShouldBindJSON_nil :
  forall body, exists e, ShouldBindJSON body None = (None, Some e).
Proof.
  intros [j |]; [exists InvalidUnmarshalError | exists SyntaxError]; reflexivity.
Qed.

Lemma GetUser_cases :
  forall c db,
    GetUser c db =
    match Atoi (Param_id c) with
    | None => (db, Respond 400 (Text "ID must be numerical: "
                                     [VError (NumError (Param_id c))]))
    | Some _ => (db, Respond 404 (Text "Invalid ID: not found" []))
    end.
Proof.
  intros c db. unfold GetUser. destruct (Atoi (Param_id c)); reflexivity.
Qed.

Lemma DeleteUser_cases :
  forall c db,
    DeleteUser c db =
    match Atoi (Param_id c) with
    | None => (db, Respond 400 (Text "Invalid ID: must be numerical" []))
    | Some _ => (db, Respond 404 (Text "Not found" []))
    end.
Proof.
  intros c db. unfold DeleteUser. destruct (Atoi (Param_id c)); reflexivity.
Qed.

Lemma UpdateUser_cases :
  forall c db,
    UpdateUser c db =
    match Atoi (Param_id c) with
    | None => (db, Respond 400 (Text "Invalid ID: must be numerical" []))
    | Some _ =>
        (db, Respond 400
               (Text "Invalid body: "
                  [VError (match Body c with
                           | Some _ => InvalidUnmarshalError
                           | None => SyntaxError
                           end)]))
    end.
Proof.
  intros c db. unfold UpdateUser.
  destruct (Atoi (Param_id c)); [| reflexivity].
  destruct (Body c); reflexivity.
Qed.

(** *** What [CreateUser] does with a body *)

Lemma CreateUser_cases :
  forall c db,
    CreateUser c db =
    match CreationUser.ShouldBindJSON (Body c) CreationUser.zero with
    | (_, Some e) => (db, Respond 400 (Text "Invalid body: " [VError e]))
    | (u, None) =>
        match hashing_salt (CreationUser.Password u) with
        | None => (db, Respond 500 (Text "" []))
        | Some salt =>
            let row := created_row u salt (N.succ (last_id db)) in
            ({| table := table db ++ [row];
                last_id := N.succ (last_id db);
                log := log db ++ [INSERT row] |},
             Respond 200 (JSON (User_MarshalJSON row)))
        end
    end.
Proof.
  intros c db. unfold CreateUser, CreateUser_built.
  bind_cases c; [reflexivity |].
  unfold GenerateFromPassword, hashing_salt. cbn [Password set_Password
    set_Artist set_Curator set_Email set_Username zero_User].
  destruct (72 <? String.length (CreationUser.Password u))%nat; [reflexivity |].
  destruct rand_salt; reflexivity.
Qed.

Lemma GetMe_cases :
  forall c db,
    GetMe c db =
    (logged (SELECT_FIRST (ByUsername (claims_id c))) db,
     Respond 200 (JSON (User_MarshalJSON
                          (match resolve c db with
                           | Some row => columns row
                           | None => zero_User
                           end)))).
Proof.
  intros c db. unfold GetMe, First_into, resolve.
  destruct (first_row (ByUsername (claims_id c)) (table db)); reflexivity.
Qed.

(** No handler ever answers with a conflict, a privileged-flag error or a
    foreign-user error. *)
Lemma no_check_is_surfaced :
  forall r c db, surfaced (outcome (snd (Initialize r c db))) = None.
Proof.
  intros r c db. destruct r; simpl.
  - rewrite CreateUser_cases.
    bind_cases c; [reflexivity |].
    destruct (hashing_salt _); reflexivity.
  - reflexivity.
  - rewrite GetUser_cases. destruct (Atoi (Param_id c)); reflexivity.
  - rewrite UpdateUser_cases. destruct (Atoi (Param_id c)); reflexivity.
  - rewrite DeleteUser_cases. destruct (Atoi (Param_id c)); reflexivity.
  - rewrite GetMe_cases. reflexivity.
Qed.

(** *** The claims *)

(** What the dead test of [CreateUser] (151-154) leaves of the privileged
    flags.  [CreationUser] has no field for [is_staff] or [is_admin]: a
    create-User request is processed exactly as if its body had no such
    member, it is never answered the privileged-flag error, a record it
    stores has neither flag, and none of this depends on the claims of the
    caller ([POST /users] is registered outside the groups that use the auth
    middleware). *)
Theorem CreateUser_ignores_privileged_members :
  forall c db,
    CreateUser (with_Body c (option_map without_privileged (Body c))) db
    = CreateUser c db
    /\ outcome (snd (CreateUser c db)) <> PrivilegeEscalation
    /\ (table (fst (CreateUser c db)) = table db
        \/ exists row,
             table (fst (CreateUser c db)) = table db ++ [row]
             /\ Staff row = false /\ Admin row = false)
    /\ (forall payload,
          CreateUser {| Param_id := Param_id c; Body := Body c;
                        JWT_PAYLOAD := payload |} db
          = CreateUser c db)
    /\ behind_auth POST_users = false.
Proof.
  intros c db. repeat split.
  - rewrite !CreateUser_cases. simpl Body.
    rewrite CreationUser_bind_without_privileged. reflexivity.
  - rewrite CreateUser_cases.
    bind_cases c; [simpl; discriminate |].
    destruct (hashing_salt _); simpl; discriminate.
  - rewrite CreateUser_cases.
    bind_cases c; [left; reflexivity |].
    destruct (hashing_salt _) as [salt |]; [| left; reflexivity].
    right. exists (created_row u salt (N.succ (last_id db))).
    repeat split.
Qed.


(** C7, as amended.  [GetMe] resolves the claim with exactly one statement,
    the lookup of the first user whose username is the subject of the claim,
    and does not read its error: the answer is always [Success], with the
    columns of the row when there is one and with the zero-valued user when
    the store returns no row. *)
Theorem GetMe_resolves_with_one_lookup :
  forall c db,
    log (fst (GetMe c db)) = log db ++ [SELECT_FIRST (ByUsername (claims_id c))]
    /\ table (fst (GetMe c db)) = table db
    /\ outcome (snd (GetMe c db)) = Success
    /\ snd (GetMe c db)
       = Respond 200 (JSON (User_MarshalJSON
                              (match resolve c db with
                               | Some row => columns row
                               | None => zero_User
                               end))).
Proof.
  intros c db. rewrite GetMe_cases. repeat split.
Qed.

(** C8.  A create-User request whose body binds is answered with [Success]
    when its password can be hashed: the row it adds holds, as its password,
    the bcrypt hash of cost 12 ([$2a$12$], the salt, the digest) and so
    differs from a plaintext that does not itself begin with [$2a$12$], and
    the response has no member [password].  When the password cannot be
    hashed (it is longer than 72 bytes, or the salt cannot be read) the
    answer is status 500 and nothing is stored. *)
Theorem CreateUser_stores_the_hash_only :
  forall c db u,
    CreationUser.ShouldBindJSON (Body c) CreationUser.zero = (u, None) ->
    match rand_salt with
    | Some salt =>
        if (72 <? String.length (CreationUser.Password u))%nat
        then CreateUser c db = (db, Respond 500 (Text "" []))
        else
          let row := created_row u salt (N.succ (last_id db)) in
          outcome (snd (CreateUser c db)) = Success
          /\ snd (CreateUser c db) = Respond 200 (JSON (User_MarshalJSON row))
          /\ table (fst (CreateUser c db)) = table db ++ [row]
          /\ Password row
             = ("$2a$12$" ++ salt
                ++ bcrypt (CreationUser.Password u) 12 salt)%string
          /\ (starts_with "$2a$12$" (CreationUser.Password u) = false ->
              Password row <> CreationUser.Password u)
          /\ member_of "password" (User_MarshalJSON row) = None
    | None => CreateUser c db = (db, Respond 500 (Text "" []))
    end.
Proof.
  intros c db u Hbind.
  rewrite CreateUser_cases, Hbind. unfold hashing_salt.
  destruct rand_salt as [salt |];
    destruct (72 <? String.length (CreationUser.Password u))%nat;
    try reflexivity.
  cbv zeta. repeat (split; [reflexivity |]).
  split; [| reflexivity].
  intros Hprefix Heq. rewrite <- Heq in Hprefix.
  unfold starts_with, created_row in Hprefix. simpl in Hprefix.
  destruct (salt ++ bcrypt (CreationUser.Password u) 12 salt)%string; discriminate.
Qed.

(** C9.  Two request bodies that differ only in their [is_admin] members bind
    to the same record, for [CreationUser] and for [User], and get the same
    answer from [CreateUser] and from [UpdateUser]; whatever the body, a
    bound [User] keeps the [Admin] it had.  There is no such exclusion for
    [is_staff] on [User]: the member is written to [Staff]. *)
Theorem is_admin_member_is_never_bound :
  forall j1 j2,
    without_member "is_admin" j1 = without_member "is_admin" j2 ->
    (forall obj,
        CreationUser.ShouldBindJSON (Some j1) obj
        = CreationUser.ShouldBindJSON (Some j2) obj)
    /\ (forall obj, ShouldBindJSON (Some j1) obj = ShouldBindJSON (Some j2) obj)
    /\ (forall c db,
          CreateUser (with_Body c (Some j1)) db = CreateUser (with_Body c (Some j2)) db)
    /\ (forall c db,
          UpdateUser (with_Body c (Some j1)) db = UpdateUser (with_Body c (Some j2)) db)
    /\ (forall u u' e,
          ShouldBindJSON (Some j1) (Some u) = (Some u', e) -> Admin u' = Admin u)
    /\ (forall u,
          fst (ShouldBindJSON (Some (JObj [("is_staff", JBool true)])) (Some u))
          = Some (set_Staff u true)).
Proof.
  intros j1 j2 Hsame.
  assert (Hcreation : forall obj,
             CreationUser.ShouldBindJSON (Some j1) obj
             = CreationUser.ShouldBindJSON (Some j2) obj).
  { intros obj.
    rewrite <- (CreationUser_bind_without_is_admin j1),
            <- (CreationUser_bind_without_is_admin j2), Hsame.
    reflexivity. }
  split; [exact Hcreation |].
  split.
  { intros obj.
    rewrite <- (User_bind_without_is_admin j1),
            <- (User_bind_without_is_admin j2), Hsame.
    reflexivity. }
  split.
  { intros c db. rewrite !CreateUser_cases. simpl Body.
    rewrite Hcreation. reflexivity. }
  split.
  { intros c db. rewrite !UpdateUser_cases. reflexivity. }
  split.
  - intros u u' e Hbind. unfold ShouldBindJSON in Hbind.
    pose proof (decode_members_keeps_Admin) as Hkeep.
    destruct j1; simpl in Hbind;
      try (injection Hbind as Hu _; inversion Hu; subst; reflexivity).
    specialize (Hkeep members u).
    destruct (decode_members User_member members u) as [u1 [e1 |]];
      simpl in Hkeep; injection Hbind as Hu _; subst; exact Hkeep.
  - intros u. simpl. destruct (validate_User (set_Staff u true)); reflexivity.
Qed.

(** C10.  [GetUser] and [DeleteUser] look a user up through a [*User] that is
    nil, and [UpdateUser] binds the body to one.  For a request with a numeric
    id the lookup leaves the pointer nil, so [GetUser] and [DeleteUser] take
    their NotFound branch, and the binding fails, so [UpdateUser] answers
    that the body is invalid.  None of the three ever answers [Success], and
    none sends a statement or changes a row. *)
Theorem nil_User_is_never_filled :
  forall c db id,
    Atoi (Param_id c) = Some id ->
    First db None (ByID id) = (db, None)
    /\ (exists e, ShouldBindJSON (Body c) None = (None, Some e))
    /\ GetUser c db = (db, Respond 404 (Text "Invalid ID: not found" []))
    /\ DeleteUser c db = (db, Respond 404 (Text "Not found" []))
    /\ (exists e,
          UpdateUser c db = (db, Respond 400 (Text "Invalid body: " [VError e])))
    /\ (forall c' db',
          (fst (GetUser c' db') = db' /\ outcome (snd (GetUser c' db')) <> Success)
          /\ (fst (DeleteUser c' db') = db'
              /\ outcome (snd (DeleteUser c' db')) <> Success)
          /\ (fst (UpdateUser c' db') = db'
              /\ outcome (snd (UpdateUser c' db')) <> Success)).
Proof.
  intros c db id Hid.
  split; [reflexivity |].
  split; [apply ShouldBindJSON_nil |].
  rewrite GetUser_cases, DeleteUser_cases, UpdateUser_cases, Hid.
  repeat split; try (eexists; reflexivity).
  all: rewrite ?GetUser_cases, ?DeleteUser_cases, ?UpdateUser_cases;
    destruct (Atoi (Param_id c')); simpl; try reflexivity; discriminate.
Qed.

(** ** More on the handlers *)

(** *** The store under the routes *)

(** A route leaves the table and the counter alone, or it is [POST /users]
    answering [Success] and adding the row it answers with. *)
Lemma route_effect :
  forall r c db,
    (table (fst (Initialize r c db)) = table db
     /\ last_id (fst (Initialize r c db)) = last_id db
     /\ (outcome (snd (Initialize r c db)) <> Success ->
         fst (Initialize r c db) = db))
    \/ (r = POST_users
        /\ exists u salt,
             hashing_salt (CreationUser.Password u) = Some salt
             /\ CreationUser.ShouldBindJSON (Body c) CreationUser.zero = (u, None)
             /\ Initialize r c db
                = ({| table := table db
                                 ++ [created_row u salt (N.succ (last_id db))];
                      last_id := N.succ (last_id db);
                      log := log db
                             ++ [INSERT (created_row u salt (N.succ (last_id db)))] |},
                   Respond 200
                     (JSON (User_MarshalJSON
                              (created_row u salt (N.succ (last_id db))))))).
Proof.
  intros r c db. destruct r; simpl.
  - rewrite CreateUser_cases.
    destruct (CreationUser.ShouldBindJSON (Body c) CreationUser.zero)
      as [u [e |]] eqn:Hbind.
    + left. simpl. auto.
    + destruct (hashing_salt (CreationUser.Password u)) as [salt |] eqn:Hsalt.
      * right. split; [reflexivity |]. exists u, salt. auto.
      * left. simpl. auto.
  - left. simpl. repeat split. intros H. exfalso. apply H. reflexivity.
  - left. rewrite GetUser_cases. destruct (Atoi (Param_id c)); simpl; auto.
  - left. rewrite UpdateUser_cases. destruct (Atoi (Param_id c)); simpl; auto.
  - left. rewrite DeleteUser_cases. destruct (Atoi (Param_id c)); simpl; auto.
  - left. rewrite GetMe_cases. simpl. repeat split.
    intros H. exfalso. apply H. reflexivity.
Qed.

(** X1.  Under every route the table only grows at its end: the rows that
    were stored stay as they were and where they were, at most one row is
    added, and only [POST /users] adds one; the counter never goes down. *)
Theorem store_is_append_only :
  forall r c db,
    (last_id db <= last_id (fst (Initialize r c db)))%N
    /\ (table (fst (Initialize r c db)) = table db
        \/ (r = POST_users
            /\ exists row,
                 table (fst (Initialize r c db)) = table db ++ [row]
                 /\ ID row = N.succ (last_id db)
                 /\ snd (Initialize r c db)
                    = Respond 200 (JSON (User_MarshalJSON row)))).
Proof.
  intros r c db.
  destruct (route_effect r c db) as [(Ht & Hl & _) | (Hr & u & salt & _ & _ & Heq)].
  - rewrite Hl. split; [lia | left; exact Ht].
  - rewrite Heq. simpl. split; [lia |].
    right. split; [exact Hr |].
    exists (created_row u salt (N.succ (last_id db))). repeat split.
Qed.

(** X2.  A request that is not answered [Success] has no effect: the store
    after it is the store before it, statement log included. *)
Theorem refused_request_has_no_effect :
  forall r c db,
    outcome (snd (Initialize r c db)) <> Success ->
    fst (Initialize r c db) = db.
Proof.
  intros r c db Hrefused.
  destruct (route_effect r c db) as [(_ & _ & H) | (_ & u & salt & _ & _ & Heq)].
  - exact (H Hrefused).
  - exfalso. apply Hrefused. rewrite Heq. reflexivity.
Qed.

(** X3.  Every route keeps the keys of the table distinct, positive and not
    above the counter. *)
Theorem routes_keep_keys_ok :
  forall r c db, keys_ok db -> keys_ok (fst (Initialize r c db)).
Proof.
  intros r c db [Hnodup Hall].
  destruct (route_effect r c db) as [(Ht & Hl & _) | (_ & u & salt & _ & _ & Heq)].
  - unfold keys_ok. rewrite Ht, Hl. split; assumption.
  - rewrite Heq. unfold keys_ok. simpl. split.
    + rewrite map_app. simpl.
      apply NoDup_app; [exact Hnodup | repeat constructor; intros [] | ].
      intros k Hold [Hnew | []].
      apply in_map_iff in Hold. destruct Hold as (row & Hk & Hin).
      rewrite Forall_forall in Hall. specialize (Hall row Hin).
      unfold ID in *. simpl in Hnew. lia.
    + apply Forall_app. split.
      * eapply Forall_impl; [| exact Hall]. simpl. intros row H. lia.
      * repeat constructor; unfold ID; simpl; lia.
Qed.

(** *** What the answers show of the store *)

Lemma matches_public :
  forall cond row, matches cond (public row) = matches cond row.
Proof. intros [id | [name |]] row; reflexivity. Qed.

Lemma filter_matches_public :
  forall cond rows,
    filter (matches cond) (map public rows)
    = map public (filter (matches cond) rows).
Proof.
  intros cond. induction rows as [| row rows IH]; simpl; [reflexivity |].
  rewrite matches_public, IH. destruct (matches cond row); reflexivity.
Qed.

Lemma first_row_public :
  forall cond rows,
    first_row cond (map public rows) = option_map public (first_row cond rows).
Proof.
  intros cond rows. unfold first_row. rewrite filter_matches_public.
  induction (filter (matches cond) rows) as [| row l IH]; simpl; [reflexivity |].
  rewrite IH.
  destruct (fold_right _ None l) as [a |]; simpl; [| reflexivity].
  change (ID (public row)) with (ID row). change (ID (public a)) with (ID a).
  destruct (ID row <=? ID a)%N; reflexivity.
Qed.

(** The columns tagged [json:"-"] are no part of what [c.JSON] renders. *)
Lemma MarshalJSON_public :
  forall row dest,
    User_MarshalJSON (scan row dest) = User_MarshalJSON (scan (public row) dest).
Proof. reflexivity. Qed.

Lemma answers_read_public_columns :
  forall r c db1 db2,
    same_public db1 db2 ->
    snd (Initialize r c db1) = snd (Initialize r c db2)
    /\ same_public (fst (Initialize r c db1)) (fst (Initialize r c db2)).
Proof.
  intros r c db1 db2 [Hrows Hid]. unfold same_public.
  destruct r; simpl.
  - rewrite !CreateUser_cases, Hid.
    bind_cases c; [simpl; auto |].
    destruct (hashing_salt _); simpl; [| auto].
    rewrite !map_app, Hrows. auto.
  - unfold GetUsers, Find; simpl. split; [| auto].
    do 3 f_equal. rewrite !map_map.
    erewrite map_ext; [| intros row; apply MarshalJSON_public].
    symmetry.
    erewrite map_ext; [| intros row; apply MarshalJSON_public].
    rewrite <- (map_map public (fun row => User_MarshalJSON (scan row zero_User))).
    rewrite <- (map_map public (fun row => User_MarshalJSON (scan row zero_User))
                        (table db1)).
    rewrite Hrows. reflexivity.
  - rewrite !GetUser_cases. destruct (Atoi (Param_id c)); simpl; auto.
  - rewrite !UpdateUser_cases. destruct (Atoi (Param_id c)); simpl; auto.
  - rewrite !DeleteUser_cases. destruct (Atoi (Param_id c)); simpl; auto.
  - rewrite !GetMe_cases. simpl. split; [| auto].
    do 2 f_equal. unfold resolve.
    pose proof (first_row_public (ByUsername (claims_id c)) (table db1)) as H1.
    pose proof (first_row_public (ByUsername (claims_id c)) (table db2)) as H2.
    rewrite Hrows, H2 in H1.
    destruct (first_row _ (table db1)) as [row1 |],
             (first_row _ (table db2)) as [row2 |];
      simpl in H1; try discriminate; [| reflexivity].
    assert (Hp : public row1 = public row2).
    { symmetry.
      exact (f_equal (fun o => match o with
                               | Some x => x
                               | None => public row1
                               end) H1). }
    unfold columns.
    transitivity (User_MarshalJSON (scan (public row1) zero_User));
      [apply MarshalJSON_public |].
    rewrite Hp. symmetry. apply MarshalJSON_public.
Qed.

(** X4.  No answer shows a password hash or an admin flag: on two stores
    that differ at most in these two columns, every route gives the same
    answer to the same request, and the stores differ at most in these two
    columns afterwards. *)
Theorem answers_do_not_depend_on_secrets :
  forall r c db1 db2,
    same_public db1 db2 ->
    snd (Initialize r c db1) = snd (Initialize r c db2)
    /\ same_public (fst (Initialize r c db1)) (fst (Initialize r c db2)).
Proof.
  exact answers_read_public_columns.
Qed.

(** X14.  Only a signup that is answered [Success] changes what later
    requests are answered: after any other request, every route answers
    every request as it would have answered it before. *)
Theorem only_a_signup_changes_later_answers :
  forall r c db r' c',
    r <> POST_users \/ outcome (snd (Initialize r c db)) <> Success ->
    snd (Initialize r' c' (fst (Initialize r c db))) = snd (Initialize r' c' db).
Proof.
  intros r c db r' c' Hother.
  apply answers_read_public_columns.
  destruct (route_effect r c db) as [(Ht & Hl & _) | (Hr & u & salt & _ & _ & Heq)].
  - split; [rewrite Ht; reflexivity | exact Hl].
  - exfalso. destruct Hother as [Hother | Hother]; [exact (Hother Hr) |].
    apply Hother. rewrite Heq. reflexivity.
Qed.

(** *** Signing up, then reading *)

Lemma filter_nothing :
  forall (A : Type) (p : A -> bool) (l : list A),
    (forall x, In x l -> p x = false) -> filter p l = [].
Proof.
  intros A p. induction l as [| x l IH]; intros H; simpl; [reflexivity |].
  rewrite (H x (or_introl eq_refl)). apply IH.
  intros y Hy. apply H. right. exact Hy.
Qed.

Lemma first_row_In :
  forall cond rows row,
    first_row cond rows = Some row -> In row rows /\ matches cond row = true.
Proof.
  intros cond rows row. unfold first_row. rewrite <- filter_In.
  induction (filter (matches cond) rows) as [| x l IH]; simpl; [discriminate |].
  destruct (fold_right _ None l) as [a |].
  - destruct (ID x <=? ID a)%N; intros H; injection H as H; subst; auto.
  - intros H; injection H as H; subst; auto.
Qed.

Lemma first_row_finds :
  forall cond rows old,
    In old rows -> matches cond old = true -> first_row cond rows <> None.
Proof.
  intros cond rows old Hin Hm. unfold first_row.
  assert (Hf : In old (filter (matches cond) rows)) by (apply filter_In; auto).
  destruct (filter (matches cond) rows) as [| x l]; [destruct Hf |]. simpl.
  destruct (fold_right _ None l) as [a |]; [destruct (ID x <=? ID a)%N |];
    discriminate.
Qed.

(** A row added at the end is the first match when it is the only one. *)
Lemma first_row_fresh :
  forall cond rows row,
    matches cond row = true ->
    (forall old, In old rows -> matches cond old = false) ->
    first_row cond (rows ++ [row]) = Some row.
Proof.
  intros cond rows row Hm Hnone. unfold first_row.
  rewrite filter_app, (filter_nothing _ _ rows Hnone). simpl.
  rewrite Hm. reflexivity.
Qed.

(** A row added at the end with a key that is not below the others does not
    change the first match when there was one. *)
Lemma first_row_shadowed :
  forall cond rows row old,
    Forall (fun r => (ID r <= ID row)%N) rows ->
    In old rows -> matches cond old = true ->
    first_row cond (rows ++ [row]) = first_row cond rows.
Proof.
  intros cond rows row old Hall Hin Hm. unfold first_row.
  rewrite filter_app.
  assert (Hold : In old (filter (matches cond) rows)) by (apply filter_In; auto).
  assert (Hle : Forall (fun r => (ID r <= ID row)%N) (filter (matches cond) rows)).
  { rewrite Forall_forall in *. intros r Hr. apply Hall.
    apply filter_In in Hr. tauto. }
  simpl. destruct (matches cond row); [| rewrite app_nil_r; reflexivity].
  assert (Hsome : filter (matches cond) rows <> []).
  { intros Hnil. rewrite Hnil in Hold. destruct Hold. }
  clear Hold. revert Hsome Hle.
  induction (filter (matches cond) rows) as [| x l IH]; intros Hsome Hle;
    [contradiction |].
  inversion Hle as [| ? ? Hx Hl]; subst. simpl.
  destruct l as [| y l'].
  - simpl. apply N.leb_le in Hx. rewrite Hx. reflexivity.
  - rewrite IH; [reflexivity | discriminate | exact Hl].
Qed.

(** A signup is answered [Success] only when its body binds and its
    password is hashed. *)
Lemma CreateUser_answered_200 :
  forall c db,
    outcome (snd (CreateUser c db)) = Success ->
    exists u salt,
      CreationUser.ShouldBindJSON (Body c) CreationUser.zero = (u, None)
      /\ hashing_salt (CreationUser.Password u) = Some salt.
Proof.
  intros c db. rewrite CreateUser_cases.
  destruct (CreationUser.ShouldBindJSON (Body c) CreationUser.zero)
    as [u [e |]]; [simpl; discriminate |].
  destruct (hashing_salt (CreationUser.Password u)) as [salt |] eqn:Hsalt;
    [| simpl; discriminate].
  intros _. exists u, salt. split; [reflexivity | exact Hsalt].
Qed.

(** X5.  After a signup that is answered [Success] with a username no stored
    user has, [GET /me] for that subject answers exactly what the signup
    answered. *)
Theorem signup_then_me_round_trip :
  forall c db u c',
    outcome (snd (CreateUser c db)) = Success ->
    CreationUser.ShouldBindJSON (Body c) CreationUser.zero = (u, None) ->
    (forall row, In row (table db) -> Username row <> CreationUser.Username u) ->
    claims_id c' = Some (CreationUser.Username u) ->
    snd (GetMe c' (fst (CreateUser c db))) = snd (CreateUser c db).
Proof.
  intros c db u c' Hok Hbind Hfresh Hclaim.
  destruct (CreateUser_answered_200 c db Hok) as (u0 & salt & Hbind0 & Hsalt).
  rewrite Hbind in Hbind0. injection Hbind0 as <-.
  rewrite CreateUser_cases, Hbind, Hsalt. cbv zeta. simpl fst. simpl snd.
  rewrite GetMe_cases. simpl snd. unfold resolve. simpl table.
  rewrite Hclaim, first_row_fresh; [reflexivity | apply String.eqb_refl |].
  intros old Hold. simpl. apply String.eqb_neq. exact (Hfresh old Hold).
Qed.

(** X6.  After a signup that is answered [Success] with a username that a
    stored user has already, [GET /me] for that subject keeps answering what
    it answered before, which is not the account the signup made: the new
    account cannot be read through its own username. *)
Theorem taken_username_shadows_the_new_account :
  forall c db u c' old,
    outcome (snd (CreateUser c db)) = Success ->
    CreationUser.ShouldBindJSON (Body c) CreationUser.zero = (u, None) ->
    Forall (fun row => (ID row <= last_id db)%N) (table db) ->
    In old (table db) ->
    Username old = CreationUser.Username u ->
    claims_id c' = Some (CreationUser.Username u) ->
    snd (GetMe c' (fst (CreateUser c db))) = snd (GetMe c' db)
    /\ snd (GetMe c' (fst (CreateUser c db))) <> snd (CreateUser c db).
Proof.
  intros c db u c' old Hok Hbind Hkeys Hin Hname Hclaim.
  destruct (CreateUser_answered_200 c db Hok) as (u0 & salt & Hbind0 & Hsalt).
  rewrite Hbind in Hbind0. injection Hbind0 as <-.
  assert (Hm : matches (ByUsername (Some (CreationUser.Username u))) old = true).
  { simpl. rewrite Hname. apply String.eqb_refl. }
  assert (Hsame : snd (GetMe c' (fst (CreateUser c db))) = snd (GetMe c' db)).
  { rewrite CreateUser_cases, Hbind, Hsalt. cbv zeta. simpl fst.
    rewrite !GetMe_cases. simpl snd. unfold resolve. simpl table.
    rewrite Hclaim, (first_row_shadowed _ _ _ old); [reflexivity | | exact Hin | exact Hm].
    eapply Forall_impl; [| exact Hkeys].
    intros row Hrow. unfold ID in *. simpl. lia. }
  split; [exact Hsame |].
  rewrite Hsame, GetMe_cases, CreateUser_cases, Hbind, Hsalt.
  cbv zeta. simpl snd. unfold resolve. rewrite Hclaim.
  destruct (first_row (ByUsername (Some (CreationUser.Username u))) (table db))
    as [row |] eqn:Hrow.
  - apply first_row_In in Hrow. destruct Hrow as [Hrow _].
    rewrite Forall_forall in Hkeys. specialize (Hkeys row Hrow).
    intros Heq. injection Heq as Hid _. unfold ID in Hkeys. lia.
  - exfalso. exact (first_row_finds _ _ old Hin Hm Hrow).
Qed.

(** X7.  After a signup that is answered [Success], [GET /users] lists what
    it listed before, followed by the object the signup answered. *)
Theorem signup_then_list :
  forall c db c',
    outcome (snd (CreateUser c db)) = Success ->
    exists items item,
      snd (GetUsers c' db) = Respond 200 (JSON (JArr items))
      /\ snd (CreateUser c db) = Respond 200 (JSON item)
      /\ snd (GetUsers c' (fst (CreateUser c db)))
         = Respond 200 (JSON (JArr (items ++ [item]))).
Proof.
  intros c db c' Hok.
  destruct (CreateUser_answered_200 c db Hok) as (u & salt & Hbind & Hsalt).
  rewrite CreateUser_cases, Hbind, Hsalt. cbv zeta.
  eexists. eexists.
  split; [reflexivity |]. split; [reflexivity |].
  unfold GetUsers, Find. simpl. rewrite !map_app. reflexivity.
Qed.

(** *** What a signup reads of its body *)

Lemma CreationUser_member_keeps_blank :
  forall tag k v u,
    In tag ["email"; "password"; "username"] ->
    text_field tag u = "" ->
    String.eqb (foldName k) tag
    && match v with
       | JStr s => negb (String.eqb s "")
       | _ => false
       end = false ->
    text_field tag (fst (CreationUser.member k v u)) = "".
Proof.
  intros tag k v u Hin. unfold CreationUser.member. cbv zeta.
  destruct Hin as [<- | [<- | [<- | []]]]; unfold text_field; simpl;
    intros Hblank;
    destruct (String.eqb (foldName k) "email") eqn:E1;
    destruct (String.eqb (foldName k) "password") eqn:E2;
    destruct (String.eqb (foldName k) "username") eqn:E3;
    destruct (String.eqb (foldName k) "is_artist") eqn:E4;
    destruct (String.eqb (foldName k) "is_curator") eqn:E5;
    destruct v as [| b | neg n | lit | s | items | ms]; simpl;
    try (destruct b); try (destruct (String.eqb s "") eqn:Es);
    simpl; intros Hno;
    try discriminate; try assumption; try reflexivity;
    try (apply String.eqb_eq in Es; exact Es).
Qed.

Lemma decode_members_keeps_blank :
  forall tag ms u,
    In tag ["email"; "password"; "username"] ->
    text_field tag u = "" ->
    gives tag (Some (JObj ms)) = false ->
    text_field tag (fst (decode_members CreationUser.member ms u)) = "".
Proof.
  intros tag ms u Hin. revert u.
  induction ms as [| [k v] rest IH]; intros u Hblank Hno; simpl in *;
    [exact Hblank |].
  apply orb_false_iff in Hno. destruct Hno as [Hkv Hrest].
  pose proof (CreationUser_member_keeps_blank tag k v u Hin Hblank Hkv) as H1.
  destruct (CreationUser.member k v u) as [u1 e1]. simpl in H1.
  specialize (IH u1 H1 Hrest).
  destruct (decode_members CreationUser.member rest u1) as [u2 e2].
  exact IH.
Qed.

Lemma validate_blank :
  forall tag u,
    In tag ["email"; "password"; "username"] ->
    text_field tag u = "" ->
    CreationUser.validate u <> None.
Proof.
  intros tag u Hin. unfold CreationUser.validate, required.
  destruct Hin as [<- | [<- | [<- | []]]]; unfold text_field; simpl;
    intros Hblank; rewrite Hblank; simpl;
    repeat match goal with
           | |- context [if String.eqb ?s "" then _ else _] =>
               destruct (String.eqb s "")
           end; simpl; discriminate.
Qed.

(** A body that does not give a required field a non-empty string does not
    bind. *)
Lemma CreationUser_bind_needs_text :
  forall tag body,
    In tag ["email"; "password"; "username"] ->
    gives tag body = false ->
    exists u e, CreationUser.ShouldBindJSON body CreationUser.zero = (u, Some e).
Proof.
  intros tag [j |] Hin Hno; [| do 2 eexists; reflexivity].
  unfold CreationUser.ShouldBindJSON.
  assert (Hzero : text_field tag CreationUser.zero = "").
  { destruct Hin as [<- | [<- | [<- | []]]]; reflexivity. }
  destruct j; simpl; try (do 2 eexists; reflexivity).
  pose proof (decode_members_keeps_blank tag members CreationUser.zero
                Hin Hzero Hno) as Hblank.
  destruct (decode_members CreationUser.member members CreationUser.zero)
    as [u [e |]]; [do 2 eexists; reflexivity |].
  simpl in Hblank.
  pose proof (validate_blank tag u Hin Hblank) as Hv.
  destruct (CreationUser.validate u) as [e |]; [| contradiction].
  do 2 eexists; reflexivity.
Qed.

Lemma CreateUser_needs_text :
  forall tag c db,
    In tag ["email"; "password"; "username"] ->
    gives tag (Body c) = false ->
    exists e, CreateUser c db = (db, Respond 400 (Text "Invalid body: " [VError e])).
Proof.
  intros tag c db Hin Hno.
  destruct (CreationUser_bind_needs_text tag (Body c) Hin Hno) as (u & e & Hbind).
  exists e. rewrite CreateUser_cases, Hbind. reflexivity.
Qed.

(** X8.  A signup is refused with status 400, and stores nothing, unless the
    first JSON value of its body (what the decoder reads; text after it is
    not looked at) is an object that gives each of [email], [password] and
    [username] a string that is not empty: a missing member, [null], another
    kind of value and the empty string are all refused. *)
Theorem signup_needs_email_password_username :
  forall tag c db,
    In tag ["email"; "password"; "username"] ->
    gives tag (Body c) = false ->
    fst (CreateUser c db) = db
    /\ outcome (snd (CreateUser c db)) = ValidationFailure
    /\ exists e,
         snd (CreateUser c db) = Respond 400 (Text "Invalid body: " [VError e]).
Proof.
  intros tag c db Hin Hno.
  destruct (CreateUser_needs_text tag c db Hin Hno) as (e & Heq).
  rewrite Heq. simpl. repeat split. exists e. reflexivity.
Qed.

Lemma CreationUser_member_other :
  forall k v u, creation_key k = false -> CreationUser.member k v u = (u, None).
Proof.
  intros k v u Hk. unfold creation_key, creation_tags in Hk. simpl in Hk.
  repeat (apply orb_false_iff in Hk; destruct Hk as [? Hk]).
  unfold CreationUser.member. cbv zeta.
  repeat match goal with
         | H : String.eqb (foldName k) _ = false |- _ => rewrite H; clear H
         end.
  reflexivity.
Qed.

(** X9.  A signup reads five members of its body and no other: the answer
    and the store are those of the body with only its [email], [password],
    [username], [is_artist] and [is_curator] members, so no member can choose
    the id, the names, the address or any other column of the new record. *)
Theorem signup_reads_five_members_only :
  forall c db,
    CreateUser (with_Body c (option_map only_creation_members (Body c))) db
    = CreateUser c db.
Proof.
  intros c db. rewrite !CreateUser_cases. simpl Body.
  replace (CreationUser.ShouldBindJSON (option_map only_creation_members (Body c))
             CreationUser.zero)
    with (CreationUser.ShouldBindJSON (Body c) CreationUser.zero); [reflexivity |].
  destruct (Body c) as [j |]; [| reflexivity].
  destruct j; try reflexivity.
  unfold CreationUser.ShouldBindJSON, decode_object; simpl.
  rewrite <- (decode_members_skip _ CreationUser.member
                (fun k => negb (creation_key k))).
  - erewrite filter_ext; [reflexivity |].
    intros m. simpl. rewrite negb_involutive. reflexivity.
  - intros k v t Hk. apply CreationUser_member_other.
    apply negb_true_iff. exact Hk.
Qed.

(** *** The id of a request *)

Lemma Atoi_unsigned_part :
  forall s,
    Atoi s =
    match unsigned_part s with
    | EmptyString => None
    | ds =>
        match digits_value ds 0 with
        | None => None
        | Some v =>
            let n := if match s with
                        | String a _ => Ascii.eqb a "-"
                        | EmptyString => false
                        end
                     then (- v)%Z else v in
            if ((- 2 ^ 63 <=? n) && (n <? 2 ^ 63))%Z then Some n else None
        end
    end.
Proof.
  intros [| a rest]; [reflexivity |].
  destruct a as [b0 b1 b2 b3 b4 b5 b6 b7].
  destruct b0, b1, b2, b3, b4, b5, b6, b7; try reflexivity;
    destruct rest; reflexivity.
Qed.

Lemma digits_value_not_all_digits :
  forall s acc, all_digits s = false -> digits_value s acc = None.
Proof.
  induction s as [| a rest IH]; intros acc H; simpl in *; [discriminate |].
  destruct (is_digit a); simpl in H; [apply IH; exact H | reflexivity].
Qed.

Lemma Atoi_not_numeral : forall s, numeral s = false -> Atoi s = None.
Proof.
  intros s H. rewrite Atoi_unsigned_part. unfold numeral in H.
  destruct (unsigned_part s) as [| a rest]; [reflexivity |].
  simpl negb in H. rewrite andb_true_l in H.
  rewrite (digits_value_not_all_digits _ _ H). reflexivity.
Qed.

Lemma is_digit_value :
  forall a, is_digit a = true ->
            (0 <= Z.of_nat (nat_of_ascii a) - 48 <= 9)%Z.
Proof.
  intros a H. unfold is_digit in H. apply andb_true_iff in H.
  destruct H as [H1 H2]. apply Nat.leb_le in H1, H2. lia.
Qed.

(** The value of a run of digits is below the next power of ten. *)
Lemma digits_value_bound :
  forall s acc,
    all_digits s = true -> (0 <= acc)%Z ->
    exists v,
      digits_value s acc = Some v
      /\ (acc * 10 ^ Z.of_nat (String.length s) <= v
          < (acc + 1) * 10 ^ Z.of_nat (String.length s))%Z.
Proof.
  induction s as [| a rest IH]; intros acc Hall Hacc.
  - exists acc. simpl. split; [reflexivity | lia].
  - simpl in Hall. apply andb_true_iff in Hall. destruct Hall as [Ha Hrest].
    pose proof (is_digit_value a Ha) as Hd.
    cbn [digits_value]. rewrite Ha.
    destruct (IH (10 * acc + (Z.of_nat (nat_of_ascii a) - 48))%Z Hrest)
      as (v & Hv & Hlo & Hhi); [lia |].
    exists v. split; [exact Hv |].
    cbn [String.length]. rewrite Nat2Z.inj_succ, Z.pow_succ_r by lia.
    assert (Hp : (0 < 10 ^ Z.of_nat (String.length rest))%Z)
      by (apply Z.pow_pos_nonneg; lia).
    nia.
Qed.

Lemma Atoi_short_numeral :
  forall s,
    numeral s = true ->
    (String.length (unsigned_part s) <= 18)%nat ->
    exists n, Atoi s = Some n.
Proof.
  intros s Hnum Hlen. rewrite Atoi_unsigned_part. unfold numeral in Hnum.
  apply andb_true_iff in Hnum. destruct Hnum as [Hne Hall].
  destruct (digits_value_bound (unsigned_part s) 0 Hall) as (v & Hv & Hlo & Hhi);
    [lia |].
  destruct (unsigned_part s) as [| a rest] eqn:Hds; [discriminate |].
  rewrite Hv. cbv zeta.
  assert (Hpow : (10 ^ Z.of_nat (String.length (String a rest)) <= 10 ^ 18)%Z)
    by (apply Z.pow_le_mono_r; lia).
  assert (H63 : (10 ^ 18 < 2 ^ 63)%Z) by reflexivity.
  match goal with
  | |- context [if ?b then (- v)%Z else v] => destruct b
  end;
    match goal with
    | |- context [if ?t then _ else _] => destruct t eqn:Hrange
    end; try (eexists; reflexivity);
    exfalso; apply andb_false_iff in Hrange;
    destruct Hrange as [Hr | Hr];
    [apply Z.leb_gt in Hr | apply Z.ltb_ge in Hr
    | apply Z.leb_gt in Hr | apply Z.ltb_ge in Hr]; lia.
Qed.

(** X10.  The handlers of [/users/:id] tell ids apart by their text alone,
    before they send any statement: an id that is not a decimal numeral with
    an optional sign is answered 400, and a numeral of at most 18 digits is
    never answered 400 for its id ([GetUser] and [DeleteUser] answer 404). *)
Theorem id_is_read_as_a_numeral :
  forall c db,
    (numeral (Param_id c) = false ->
     GetUser c db = (db, Respond 400 (Text "ID must be numerical: "
                                        [VError (NumError (Param_id c))]))
     /\ DeleteUser c db
        = (db, Respond 400 (Text "Invalid ID: must be numerical" []))
     /\ UpdateUser c db
        = (db, Respond 400 (Text "Invalid ID: must be numerical" [])))
    /\ (numeral (Param_id c) = true ->
        (String.length (unsigned_part (Param_id c)) <= 18)%nat ->
        GetUser c db = (db, Respond 404 (Text "Invalid ID: not found" []))
        /\ DeleteUser c db = (db, Respond 404 (Text "Not found" []))
        /\ exists e,
             UpdateUser c db = (db, Respond 400 (Text "Invalid body: " [VError e]))).
Proof.
  intros c db. rewrite GetUser_cases, DeleteUser_cases, UpdateUser_cases. split.
  - intros H. rewrite (Atoi_not_numeral _ H). repeat split.
  - intros H Hlen. destruct (Atoi_short_numeral _ H Hlen) as (n & Hn).
    rewrite Hn. repeat split. eexists. reflexivity.
Qed.

(** *** The signup page against [POST /users] *)

Lemma request_gives :
  forall state tag field,
    (tag, field) = ("username", signup.username state)
    \/ (tag, field) = ("password", signup.password state)
    \/ (tag, field) = ("email", signup.email state) ->
    signup.blank field = true ->
    gives tag (Body (signup.request state)) = false.
Proof.
  intros [u p e a cu] tag field Hfield Hblank. simpl in Hfield.
  destruct Hfield as [H | [H | H]]; injection H as -> ->.
  - destruct u as [[| | | | s | |] |]; simpl in Hblank; try discriminate;
      try (apply String.eqb_eq in Hblank; subst s);
      destruct p, e, a, cu; reflexivity.
  - destruct p as [[| | | | s | |] |]; simpl in Hblank; try discriminate;
      try (apply String.eqb_eq in Hblank; subst s);
      destruct u, e, a, cu; reflexivity.
  - destruct e as [[| | | | s | |] |]; simpl in Hblank; try discriminate;
      try (apply String.eqb_eq in Hblank; subst s);
      destruct u, p, a, cu; reflexivity.
Qed.

(** X11.  A form whose username, password and email are strings that are
    not empty, whose password is at most 72 bytes long and whose two flags
    are booleans or left out, signs the user up when the salt can be read:
    one row is added with the username, the email and the flags of the form
    and the hash of its password, and the page clears its password and moves
    to the home page. *)
Theorem complete_form_signs_up :
  forall state db u p e a cu salt,
    signup.username state = Some (JStr u) -> u <> "" ->
    signup.password state = Some (JStr p) -> p <> "" ->
    (String.length p <= 72)%nat ->
    signup.email state = Some (JStr e) -> e <> "" ->
    signup.flag (signup.is_artist state) = Some a ->
    signup.flag (signup.is_curator state) = Some cu ->
    rand_salt = Some salt ->
    let row :=
      created_row {| CreationUser.Email := e; CreationUser.Password := p;
                     CreationUser.Username := u; CreationUser.Artist := a;
                     CreationUser.Curator := cu |} salt (N.succ (last_id db)) in
    submitted state db
    = ({| table := table db ++ [row];
          last_id := N.succ (last_id db);
          log := log db ++ [INSERT row] |},
       [signup.Update "password" ""; signup.PushState "/"]).
Proof.
  intros [fu fp fe fa fcu] db u p e a cu salt Hu Hune Hp Hpne Hlen He Hene Ha Hcu
         Hsalt row.
  simpl in Hu, Hp, He, Ha, Hcu. subst fu fp fe.
  apply String.eqb_neq in Hune, Hpne, Hene.
  unfold submitted. simpl Initialize. unfold endpoints.Endpoint.
  rewrite CreateUser_cases.
  assert (Hbind :
            CreationUser.ShouldBindJSON
              (Body (signup.request
                       {| signup.username := Some (JStr u);
                          signup.password := Some (JStr p);
                          signup.email := Some (JStr e);
                          signup.is_artist := fa;
                          signup.is_curator := fcu |}))
              CreationUser.zero
            = ({| CreationUser.Email := e; CreationUser.Password := p;
                  CreationUser.Username := u; CreationUser.Artist := a;
                  CreationUser.Curator := cu |}, None)).
  { unfold CreationUser.ShouldBindJSON, CreationUser.validate, required.
    destruct fa as [[| ba | | | | |] |], fcu as [[| bcu | | | | |] |];
      simpl in Ha, Hcu; try discriminate;
      injection Ha as <-; injection Hcu as <-;
      simpl; rewrite Hune, Hpne, Hene; reflexivity. }
  rewrite Hbind. unfold hashing_salt. cbn [CreationUser.Password].
  assert (Hshort : (72 <? String.length p)%nat = false)
    by (apply Nat.ltb_ge; exact Hlen).
  rewrite Hshort, Hsalt. reflexivity.
Qed.

(** X12.  A form whose username, password or email is left out, is no
    string or is empty is refused: nothing is stored and the page emits
    [loginError] with status 400. *)
Theorem incomplete_form_is_refused :
  forall state db,
    signup.blank (signup.username state)
    || signup.blank (signup.password state)
    || signup.blank (signup.email state) = true ->
    submitted state db = (db, [signup.LoginError (Some 400%Z)]).
Proof.
  intros state db Hblank.
  assert (Hrefused : exists e,
             CreateUser (signup.request state) db
             = (db, Respond 400 (Text "Invalid body: " [VError e]))).
  { apply orb_true_iff in Hblank. destruct Hblank as [Hblank | Hblank];
      [apply orb_true_iff in Hblank; destruct Hblank as [Hblank | Hblank] |].
    - apply (CreateUser_needs_text "username"); [simpl; auto |].
      eapply request_gives; [left; reflexivity | exact Hblank].
    - apply (CreateUser_needs_text "password"); [simpl; auto |].
      eapply request_gives; [right; left; reflexivity | exact Hblank].
    - apply (CreateUser_needs_text "email"); [simpl; auto |].
      eapply request_gives; [right; right; reflexivity | exact Hblank]. }
  destruct Hrefused as (e & Heq).
  unfold submitted. simpl Initialize. unfold endpoints.Endpoint.
  rewrite Heq. reflexivity.
Qed.

(** X13.  Whatever the form and the store, submitting ends in one of three
    ways: the page clears the password and moves to the home page and one
    row was added; or it emits [loginError] with status 400 and nothing was
    stored; or it emits [loginError] with status 500, nothing was stored and
    the password that was bound could not be hashed (the salt could not be
    read, or the password is longer than 72 bytes).  It never emits
    [loginError] without a status for an answer of the API. *)
Theorem submitting_ends_in_three_ways :
  forall state db,
    (snd (submitted state db) = [signup.Update "password" ""; signup.PushState "/"]
     /\ exists row, table (fst (submitted state db)) = table db ++ [row])
    \/ (snd (submitted state db) = [signup.LoginError (Some 400%Z)]
        /\ fst (submitted state db) = db)
    \/ (snd (submitted state db) = [signup.LoginError (Some 500%Z)]
        /\ fst (submitted state db) = db
        /\ exists u,
             CreationUser.ShouldBindJSON (Body (signup.request state))
               CreationUser.zero = (u, None)
             /\ (rand_salt = None
                 \/ (72 < String.length (CreationUser.Password u))%nat)).
Proof.
  intros state db. unfold submitted. simpl Initialize. unfold endpoints.Endpoint.
  rewrite CreateUser_cases.
  destruct (CreationUser.ShouldBindJSON (Body (signup.request state))
              CreationUser.zero) as [u [e |]] eqn:Hbind.
  - right. left. split; reflexivity.
  - unfold hashing_salt.
    destruct (72 <? String.length (CreationUser.Password u))%nat eqn:Hlong.
    + right. right. repeat split. exists u. split; [reflexivity |].
      right. apply Nat.ltb_lt. exact Hlong.
    + destruct rand_salt as [salt |].
      * left. split; [reflexivity |]. eexists. reflexivity.
      * right. right. repeat split. exists u. split; [reflexivity |].
        left. reflexivity.
Qed.

End Users.

Arguments table {Artwork}.
Arguments last_id {Artwork}.
Arguments log {Artwork}.
Arguments ID {Artwork}.
Arguments Username {Artwork}.
Arguments Email {Artwork}.
Arguments Password {Artwork}.
Arguments Staff {Artwork}.
Arguments Admin {Artwork}.
Arguments zero_User {Artwork}.
Arguments amy {Artwork}.
Arguments bob {Artwork}.
Arguments store {Artwork}.
Arguments empty_store {Artwork}.
Arguments resolve {Artwork}.
Arguments target {Artwork}.
Arguments fails {Artwork}.
Arguments User_MarshalJSON {Artwork}.
Arguments ShouldBindJSON {Artwork}.
Arguments GetUser {Artwork}.
Arguments GetMe {Artwork}.
Arguments CreateUser {Artwork}.
Arguments DeleteUser {Artwork}.
Arguments UpdateUser {Artwork}.
Arguments UpdateUser_bound {Artwork}.
Arguments CreateUser_built {Artwork}.
Arguments Initialize {Artwork}.

(** ** The claims on the scenarios *)

(** C1: a signup whose body sets both flags.  The test of [CreateUser] that
    answers "Cannot create admin user" reads the flags of a user that was
    built without them: whatever the digest and the salt, the caller without
    a token is answered [Success] and one record is stored, with neither
    flag. *)
Lemma signup_with_flags_succeeds :
  sets_flag "is_staff" (Body signup_mallory) = true
  /\ sets_flag "is_admin" (Body signup_mallory) = true
  /\ JWT_PAYLOAD signup_mallory = None
  /\ forall bcrypt salt,
       let after := CreateUser Raw.MarshalJSON bcrypt (Some salt) signup_mallory
                      (@empty_store Raw.Artwork) in
       snd after <> Respond 403 (Text "Cannot create admin user" [])
       /\ outcome (snd after) = Success
       /\ map Username (table (fst after)) = ["mallory"]
       /\ map Staff (table (fst after)) = [false]
       /\ map Admin (table (fst after)) = [false].
Proof.
  repeat (split; [reflexivity |]).
  intros bcrypt salt after.
  split; [discriminate |].
  repeat split.
Qed.

(** C2: the self-grant of amy.  The policy would answer
    [PrivilegeEscalation]; the handler answers that the body is invalid,
    because it binds the body to a nil [*User]. *)
Theorem UpdateUser_self_grant_is_an_invalid_body :
  resolve amy_grants_herself (@store Raw.Artwork) = Some amy
  /\ target amy_grants_herself (@store Raw.Artwork) = Some amy
  /\ fails Privilege PUT_users_id amy_grants_herself (@store Raw.Artwork) = true
  /\ UpdateUser Raw.UnmarshalJSON Raw.MarshalJSON amy_grants_herself store
     = (store, Respond 400 (Text "Invalid body: " [VError InvalidUnmarshalError]))
  /\ outcome (snd (UpdateUser Raw.UnmarshalJSON Raw.MarshalJSON
                     amy_grants_herself store))
     = ValidationFailure.
Proof.
  repeat split.
Qed.

(** C3: a second signup of amy.  The username and the email are those of a
    stored user; the handler answers [Success] and the table holds a second
    row with them. *)
Theorem CreateUser_stores_a_second_amy :
  forall bcrypt salt,
    let after := CreateUser Raw.MarshalJSON bcrypt (Some salt) signup_amy
                   (@store Raw.Artwork) in
    fails Uniqueness POST_users signup_amy (@store Raw.Artwork) = true
    /\ outcome (snd after) = Success
    /\ map Username (table (fst after)) = ["amy"; "bob"; "amy"]
    /\ map Email (table (fst after)) = ["a@x.com"; "b@x.com"; "a@x.com"]
    /\ map ID (table (fst after)) = [1; 2; 3]%N.
Proof.
  intros bcrypt salt after. repeat split.
Qed.



(** C5: scenario B, amy updates bob.  The target is bob and the principal is
    amy, who is neither staff nor admin; the handler does not come to the
    test of the identity: it answers that the body is invalid, as it does to
    bob himself. *)
Theorem UpdateUser_of_foreign_user_is_an_invalid_body :
  target amy_updates_bob (@store Raw.Artwork) = Some bob
  /\ resolve amy_updates_bob (@store Raw.Artwork) = Some amy
  /\ UpdateUser Raw.UnmarshalJSON Raw.MarshalJSON amy_updates_bob store
     = (store, Respond 400 (Text "Invalid body: " [VError InvalidUnmarshalError]))
  /\ outcome (snd (UpdateUser Raw.UnmarshalJSON Raw.MarshalJSON
                     amy_updates_bob (@store Raw.Artwork)))
     = ValidationFailure
  /\ UpdateUser Raw.UnmarshalJSON Raw.MarshalJSON
       {| Param_id := "2"; Body := Body amy_updates_bob;
          JWT_PAYLOAD := Some [("id", "bob")] |} store
     = (store, Respond 400 (Text "Invalid body: " [VError InvalidUnmarshalError])).
Proof.
  repeat split.
Qed.

(** C6: amy deletes herself.  She is the target and the principal; the
    handler answers NotFound and her row stays. *)
Theorem DeleteUser_of_oneself_is_not_found :
  resolve amy_deletes_herself (@store Raw.Artwork) = Some amy
  /\ target amy_deletes_herself (@store Raw.Artwork) = Some amy
  /\ DeleteUser amy_deletes_herself (@store Raw.Artwork)
     = (store, Respond 404 (Text "Not found" []))
  /\ outcome (snd (DeleteUser amy_deletes_herself (@store Raw.Artwork)))
     = NotFound
  /\ target amy_deletes_herself
       (fst (DeleteUser amy_deletes_herself (@store Raw.Artwork)))
     = Some amy.
Proof.
  repeat split.
Qed.

(** C7: the claim fails for a token whose subject has no row.  [GetMe]
    answers [Success] with the zero-valued user. *)
Lemma GetMe_of_unknown_subject_succeeds :
  resolve ghost_asks_me (@store Raw.Artwork) = None
  /\ outcome (snd (GetMe Raw.MarshalJSON ghost_asks_me store)) = Success
  /\ snd (GetMe Raw.MarshalJSON ghost_asks_me store)
     = Respond 200 (JSON (User_MarshalJSON Raw.MarshalJSON zero_User))
  /\ member_of "id" (User_MarshalJSON Raw.MarshalJSON zero_User)
     = Some (JNum false 0)
  /\ member_of "username" (User_MarshalJSON Raw.MarshalJSON zero_User)
     = Some (JStr "").
Proof.
  repeat split.
Qed.

(** C8: scenario A, the signup of amy with the password pw. *)
Lemma signup_amy_stores_the_hash :
  CreationUser.ShouldBindJSON (Body signup_amy) CreationUser.zero
  = ({| CreationUser.Email := "a@x.com"; CreationUser.Password := "pw";
        CreationUser.Username := "amy"; CreationUser.Artist := true;
        CreationUser.Curator := false |}, None)
  /\ outcome (snd (CreateUser Raw.MarshalJSON Raw.digest (Some Raw.salt)
                     signup_amy (@empty_store Raw.Artwork))) = Success
  /\ table (fst (CreateUser Raw.MarshalJSON Raw.digest (Some Raw.salt)
                   signup_amy (@empty_store Raw.Artwork))) = [amy]
  /\ Password (@amy Raw.Artwork) <> "pw"
  /\ member_of "password" (User_MarshalJSON Raw.MarshalJSON amy) = None.
Proof.
  split; [reflexivity |].
  pose proof (CreateUser_stores_the_hash_only Raw.Artwork Raw.MarshalJSON
                Raw.digest (Some Raw.salt) signup_amy empty_store _ eq_refl)
    as (Hok & _ & Hrow & _ & Hplain & Hfield).
  split; [exact Hok |].
  split; [exact Hrow |].
  split; [exact (Hplain eq_refl) | exact Hfield].
Defined.

(** C9: a body with the member [is_admin] and the same body without it. *)
Lemma is_admin_member_witness :
  without_member "is_admin"
    (JObj [("username", JStr "amy"); ("email", JStr "a@x.com");
           ("password", JStr "pw"); ("is_admin", JBool true)])
  = without_member "is_admin"
      (JObj [("username", JStr "amy"); ("email", JStr "a@x.com");
             ("password", JStr "pw")])
  /\ CreationUser.ShouldBindJSON
       (Some (JObj [("username", JStr "amy"); ("email", JStr "a@x.com");
                    ("password", JStr "pw"); ("is_admin", JBool true)]))
       CreationUser.zero
     = CreationUser.ShouldBindJSON
         (Some (JObj [("username", JStr "amy"); ("email", JStr "a@x.com");
                      ("password", JStr "pw")]))
         CreationUser.zero
  /\ ShouldBindJSON Raw.UnmarshalJSON
       (Some (JObj [("username", JStr "amy"); ("email", JStr "a@x.com");
                    ("password", JStr "pw"); ("is_admin", JBool true)]))
       (Some zero_User)
     = ShouldBindJSON Raw.UnmarshalJSON
         (Some (JObj [("username", JStr "amy"); ("email", JStr "a@x.com");
                      ("password", JStr "pw")]))
         (Some zero_User).
Proof.
  split; [reflexivity |].
  pose proof (is_admin_member_is_never_bound Raw.Artwork Raw.UnmarshalJSON
                Raw.MarshalJSON Raw.digest (Some Raw.salt)
                (JObj [("username", JStr "amy"); ("email", JStr "a@x.com");
                       ("password", JStr "pw"); ("is_admin", JBool true)])
                (JObj [("username", JStr "amy"); ("email", JStr "a@x.com");
                       ("password", JStr "pw")])
                eq_refl) as (Hcreation & Huser & _).
  split; [exact (Hcreation CreationUser.zero) | exact (Huser (Some zero_User))].
Defined.

(** C10: the three handlers on [/users/1] and the store of amy and bob. *)
Lemma nil_User_witness :
  Atoi (Param_id amy_deletes_herself) = Some 1%Z
  /\ GetUser Raw.MarshalJSON amy_deletes_herself (@store Raw.Artwork)
     = (store, Respond 404 (Text "Invalid ID: not found" []))
  /\ DeleteUser amy_deletes_herself (@store Raw.Artwork)
     = (store, Respond 404 (Text "Not found" []))
  /\ exists e,
       UpdateUser Raw.UnmarshalJSON Raw.MarshalJSON amy_deletes_herself
         (@store Raw.Artwork)
       = (store, Respond 400 (Text "Invalid body: " [VError e])).
Proof.
  split; [reflexivity |].
  pose proof (nil_User_is_never_filled Raw.Artwork Raw.UnmarshalJSON
                Raw.MarshalJSON amy_deletes_herself store 1%Z eq_refl)
    as (_ & _ & Hget & Hdelete & Hupdate & _).
  split; [exact Hget |].
  split; [exact Hdelete | exact Hupdate].
Defined.

Arguments keys_ok {Artwork}.
Arguments same_public {Artwork}.
Arguments store_with_other_secrets {Artwork}.
Arguments submitted {Artwork}.
Arguments GetUsers {Artwork}.
Arguments created_row {Artwork}.

(** ** More on the scenarios *)

(** X2: amy's update of bob is refused and leaves the store of amy and bob
    as it was. *)
Lemma refused_update_witness :
  outcome (snd (Initialize Raw.UnmarshalJSON Raw.MarshalJSON Raw.digest
                  (Some Raw.salt) PUT_users_id amy_updates_bob
                  (@store Raw.Artwork))) <> Success
  /\ fst (Initialize Raw.UnmarshalJSON Raw.MarshalJSON Raw.digest
            (Some Raw.salt) PUT_users_id amy_updates_bob (@store Raw.Artwork))
     = store.
Proof.
  assert (Hrefused :
            outcome (snd (Initialize Raw.UnmarshalJSON Raw.MarshalJSON Raw.digest
                            (Some Raw.salt) PUT_users_id amy_updates_bob
                            (@store Raw.Artwork))) <> Success)
    by discriminate.
  split; [exact Hrefused |].
  exact (refused_request_has_no_effect Raw.Artwork Raw.UnmarshalJSON
           Raw.MarshalJSON Raw.digest (Some Raw.salt) PUT_users_id
           amy_updates_bob store Hrefused).
Defined.

(** X3: the store of amy and bob has its keys in order, and so has the store
    after the signup of mallory. *)
Lemma keys_ok_witness :
  keys_ok (@store Raw.Artwork)
  /\ keys_ok (fst (Initialize Raw.UnmarshalJSON Raw.MarshalJSON Raw.digest
                     (Some Raw.salt) POST_users signup_mallory
                     (@store Raw.Artwork))).
Proof.
  assert (Hok : keys_ok (@store Raw.Artwork)).
  { split.
    - repeat constructor; simpl; intuition discriminate.
    - repeat constructor; unfold ID; simpl; lia. }
  split; [exact Hok |].
  exact (routes_keep_keys_ok Raw.Artwork Raw.UnmarshalJSON Raw.MarshalJSON
           Raw.digest (Some Raw.salt) POST_users signup_mallory store Hok).
Defined.

(** X4: amy asks for herself on the store of amy and bob, and on the store
    where her password and her admin flag are others. *)
Lemma secrets_witness :
  same_public (@store Raw.Artwork) store_with_other_secrets
  /\ table (@store Raw.Artwork) <> table store_with_other_secrets
  /\ snd (Initialize Raw.UnmarshalJSON Raw.MarshalJSON Raw.digest
            (Some Raw.salt) GET_me amy_asks_me store)
     = snd (Initialize Raw.UnmarshalJSON Raw.MarshalJSON Raw.digest
              (Some Raw.salt) GET_me amy_asks_me store_with_other_secrets).
Proof.
  assert (Hsame : same_public (@store Raw.Artwork) store_with_other_secrets)
    by (split; reflexivity).
  split; [exact Hsame |].
  split; [discriminate |].
  exact (proj1 (answers_do_not_depend_on_secrets Raw.Artwork Raw.UnmarshalJSON
                  Raw.MarshalJSON Raw.digest (Some Raw.salt) GET_me amy_asks_me
                  store store_with_other_secrets Hsame)).
Defined.

(** X5: amy signs up on the empty store and asks for herself. *)
Lemma signup_then_me_witness :
  outcome (snd (CreateUser Raw.MarshalJSON Raw.digest (Some Raw.salt)
                  signup_amy (@empty_store Raw.Artwork))) = Success
  /\ (forall row,
        In row (table (@empty_store Raw.Artwork)) -> Username row <> "amy")
  /\ claims_id amy_asks_me = Some "amy"
  /\ snd (GetMe Raw.MarshalJSON amy_asks_me
            (fst (CreateUser Raw.MarshalJSON Raw.digest (Some Raw.salt)
                    signup_amy empty_store)))
     = snd (CreateUser Raw.MarshalJSON Raw.digest (Some Raw.salt)
              signup_amy empty_store).
Proof.
  assert (Hfresh : forall row,
             In row (table (@empty_store Raw.Artwork)) -> Username row <> "amy")
    by (intros row []).
  split; [reflexivity |].
  split; [exact Hfresh |].
  split; [reflexivity |].
  exact (signup_then_me_round_trip Raw.Artwork Raw.MarshalJSON Raw.digest
           (Some Raw.salt) signup_amy empty_store
           {| CreationUser.Email := "a@x.com"; CreationUser.Password := "pw";
              CreationUser.Username := "amy"; CreationUser.Artist := true;
              CreationUser.Curator := false |}
           amy_asks_me eq_refl eq_refl Hfresh eq_refl).
Defined.

(** X6: amy signs up a second time on the store of amy and bob. *)
Lemma shadowed_signup_witness :
  outcome (snd (CreateUser Raw.MarshalJSON Raw.digest (Some Raw.salt)
                  signup_amy (@store Raw.Artwork))) = Success
  /\ Forall (fun row => (ID row <= last_id (@store Raw.Artwork))%N)
            (table (@store Raw.Artwork))
  /\ In amy (table (@store Raw.Artwork))
  /\ snd (GetMe Raw.MarshalJSON amy_asks_me
            (fst (CreateUser Raw.MarshalJSON Raw.digest (Some Raw.salt)
                    signup_amy store)))
     = snd (GetMe Raw.MarshalJSON amy_asks_me store)
  /\ snd (GetMe Raw.MarshalJSON amy_asks_me
            (fst (CreateUser Raw.MarshalJSON Raw.digest (Some Raw.salt)
                    signup_amy store)))
     <> snd (CreateUser Raw.MarshalJSON Raw.digest (Some Raw.salt)
               signup_amy store).
Proof.
  assert (Hkeys : Forall (fun row => (ID row <= last_id (@store Raw.Artwork))%N)
                         (table (@store Raw.Artwork)))
    by (repeat constructor; unfold ID; simpl; lia).
  assert (Hin : In amy (table (@store Raw.Artwork))) by (left; reflexivity).
  split; [reflexivity |].
  split; [exact Hkeys |].
  split; [exact Hin |].
  exact (taken_username_shadows_the_new_account Raw.Artwork Raw.MarshalJSON
           Raw.digest (Some Raw.salt) signup_amy store
           {| CreationUser.Email := "a@x.com"; CreationUser.Password := "pw";
              CreationUser.Username := "amy"; CreationUser.Artist := true;
              CreationUser.Curator := false |}
           amy_asks_me amy eq_refl eq_refl Hkeys Hin eq_refl eq_refl).
Defined.

(** X7: the list of users before and after the signup of mallory. *)
Lemma signup_then_list_witness :
  outcome (snd (CreateUser Raw.MarshalJSON Raw.digest (Some Raw.salt)
                  signup_mallory (@store Raw.Artwork))) = Success
  /\ exists items item,
       snd (GetUsers Raw.MarshalJSON amy_asks_me (@store Raw.Artwork))
       = Respond 200 (JSON (JArr items))
       /\ snd (CreateUser Raw.MarshalJSON Raw.digest (Some Raw.salt)
                 signup_mallory (@store Raw.Artwork))
          = Respond 200 (JSON item)
       /\ snd (GetUsers Raw.MarshalJSON amy_asks_me
                 (fst (CreateUser Raw.MarshalJSON Raw.digest (Some Raw.salt)
                         signup_mallory store)))
          = Respond 200 (JSON (JArr (items ++ [item]))).
Proof.
  split; [reflexivity |].
  exact (signup_then_list Raw.Artwork Raw.MarshalJSON Raw.digest (Some Raw.salt)
           signup_mallory store amy_asks_me eq_refl).
Defined.

(** X8: a signup whose body has no password. *)
Lemma signup_without_password_witness :
  In "password" ["email"; "password"; "username"]
  /\ gives "password" (Body (signup.request form_without_password)) = false
  /\ fst (CreateUser Raw.MarshalJSON Raw.digest (Some Raw.salt)
            (signup.request form_without_password) (@store Raw.Artwork))
     = store
  /\ outcome (snd (CreateUser Raw.MarshalJSON Raw.digest (Some Raw.salt)
                     (signup.request form_without_password)
                     (@store Raw.Artwork)))
     = ValidationFailure.
Proof.
  assert (Hin : In "password" ["email"; "password"; "username"])
    by (right; left; reflexivity).
  split; [exact Hin |].
  split; [reflexivity |].
  pose proof (signup_needs_email_password_username Raw.Artwork Raw.MarshalJSON
                Raw.digest (Some Raw.salt) "password"
                (signup.request form_without_password) store Hin eq_refl)
    as (Hstore & Houtcome & _).
  split; [exact Hstore | exact Houtcome].
Defined.

(** X11: amy submits her form on the empty store. *)
Lemma complete_form_witness :
  (String.length "pw" <= 72)%nat
  /\ signup.flag (signup.is_artist form_amy) = Some true
  /\ signup.flag (signup.is_curator form_amy) = Some false
  /\ submitted Raw.UnmarshalJSON Raw.MarshalJSON Raw.digest (Some Raw.salt) form_amy
       (@empty_store Raw.Artwork)
     = ({| table := [amy]; last_id := 1; log := [INSERT Raw.Artwork amy] |},
        [signup.Update "password" ""; signup.PushState "/"]).
Proof.
  assert (Hshort : (String.length "pw" <= 72)%nat) by (simpl; lia).
  split; [exact Hshort |].
  split; [reflexivity |].
  split; [reflexivity |].
  refine (complete_form_signs_up Raw.Artwork Raw.UnmarshalJSON Raw.MarshalJSON Raw.digest
            (Some Raw.salt) form_amy empty_store "amy" "pw" "a@x.com" true false
            Raw.salt eq_refl _ eq_refl _ Hshort eq_refl _ eq_refl eq_refl eq_refl);
    discriminate.
Defined.

(** X12: the form without a password on the store of amy and bob. *)
Lemma incomplete_form_witness :
  signup.blank (signup.password form_without_password) = true
  /\ submitted Raw.UnmarshalJSON Raw.MarshalJSON Raw.digest (Some Raw.salt) form_without_password
       (@store Raw.Artwork)
     = (store, [signup.LoginError (Some 400%Z)]).
Proof.
  split; [reflexivity |].
  exact (incomplete_form_is_refused Raw.Artwork Raw.UnmarshalJSON Raw.MarshalJSON Raw.digest
           (Some Raw.salt) form_without_password store eq_refl).
Defined.

(** X14: amy asks for herself after her deletion request. *)
Lemma later_answers_witness :
  (DELETE_users_id <> POST_users
   \/ outcome (snd (Initialize Raw.UnmarshalJSON Raw.MarshalJSON Raw.digest
                      (Some Raw.salt) DELETE_users_id amy_deletes_herself
                      (@store Raw.Artwork))) <> Success)
  /\ snd (Initialize Raw.UnmarshalJSON Raw.MarshalJSON Raw.digest
            (Some Raw.salt) GET_me amy_asks_me
            (fst (Initialize Raw.UnmarshalJSON Raw.MarshalJSON Raw.digest
                    (Some Raw.salt) DELETE_users_id amy_deletes_herself
                    (@store Raw.Artwork))))
     = snd (Initialize Raw.UnmarshalJSON Raw.MarshalJSON Raw.digest
              (Some Raw.salt) GET_me amy_asks_me store).
Proof.
  assert (Hother :
            DELETE_users_id <> POST_users
            \/ outcome (snd (Initialize Raw.UnmarshalJSON Raw.MarshalJSON
                               Raw.digest (Some Raw.salt) DELETE_users_id
                               amy_deletes_herself (@store Raw.Artwork)))
               <> Success)
    by (left; discriminate).
  split; [exact Hother |].
  exact (only_a_signup_changes_later_answers Raw.Artwork Raw.UnmarshalJSON
           Raw.MarshalJSON Raw.digest (Some Raw.salt) DELETE_users_id
           amy_deletes_herself store GET_me amy_asks_me Hother).
Defined.
